(** * deploy_vm.py: provisioning a VM through the Compute Engine client

    A shallow embedding of [deploy_vm.py].  The script talks to a remote
    control plane through the object [compute]; every [.execute()] is a
    round trip whose answer the script cannot predict.  The client is
    therefore a parameter of the development: a transition function over
    an arbitrary state of the remote side; [main] obtains it from
    [discovery.build], which may raise instead.  The Python functions are
    written in a small monad that threads this state, records what the
    script did (requests with their replies, prints, sleeps) and carries
    Python's exceptions.  The three [while True] loops take a fuel
    argument; running out of it is a separate outcome, told apart from
    both a normal return and a raised exception. *)

From Stdlib Require Import List String ZArith Bool Arith Lia.
Import ListNotations.

Local Open Scope string_scope.
Local Open Scope Z_scope.

Set Warnings "-register-all".

(** ** Python values *)

(** The JSON-like values that travel through the script: request bodies,
    replies of the client and the payload of a raised exception.  A dict
    keeps its items in insertion order. *)
Inductive value : Type :=
| VNone
| VBool (b : bool)
| VInt (z : Z)
| VStr (s : string)
| VList (items : list value)
| VDict (items : list (string * value)).

Definition dict : Type := list (string * value).

(** [d[key]] where it is defined; [None] stands for [KeyError]. *)
Fixpoint dict_lookup (key : string) (d : dict) : option value :=
  match d with
  | [] => None
  | (k, v) :: rest => if String.eqb k key then Some v else dict_lookup key rest
  end.

(** [d.get(key)]: a missing key reads as [None]. *)
Definition dict_get (key : string) (d : dict) : value :=
  match dict_lookup key d with
  | Some v => v
  | None => VNone
  end.

(** [key in d]. *)
Definition dict_mem (key : string) (d : dict) : bool :=
  match dict_lookup key d with
  | Some _ => true
  | None => false
  end.

(** [v == s] for a string literal [s]: only the same string is equal. *)
Definition eq_str (v : value) (s : string) : bool :=
  match v with
  | VStr s' => String.eqb s' s
  | _ => false
  end.

(** [v[key]] and [v[i]] on a value, used to read submitted bodies back. *)
Definition item (key : string) (v : value) : option value :=
  match v with
  | VDict d => dict_lookup key d
  | _ => None
  end.

Definition index (i : nat) (v : value) : option value :=
  match v with
  | VList l => nth_error l i
  | _ => None
  end.

(** ** Exceptions, requests, replies and events *)

Inductive exn : Type :=
| Exception (arg : value)      (* [raise Exception(arg)] of the script *)
| KeyError (key : string)      (* a subscript on a missing key *)
| HttpError (detail : value)   (* raised by [.execute()] itself *)
| BuildError (detail : value). (* raised by [discovery.build] *)

(** One constructor per request the script builds before [.execute()]. *)
Inductive request : Type :=
| ZoneOperationsGet (project zone : string) (operation : value)
| GlobalOperationsGet (project : string) (operation : value)
| RegionOperationsGet (project region : string) (operation : value)
| AddressesInsert (project region : string) (body : value)
| AddressesGet (project region address : string)
| FirewallsInsert (project : string) (body : value)
| InstancesInsert (project zone : string) (body : value).

(** [.execute()] answers with a parsed JSON object or raises. *)
Inductive reply : Type :=
| Response (result : dict)
| Failure (detail : value).

(** [discovery.build] hands out a client, whose behaviour is how it
    answers a request in a state [W] of the remote side, or raises. *)
Inductive built (W : Type) : Type :=
| Built (compute : request -> W -> reply * W)
| BuildFailure (detail : value).

Arguments Built {W} compute.
Arguments BuildFailure {W} detail.

(** What an observer of the process sees.  A print is kept as the parts of
    its f-string, literal text and interpolated values in order. *)
Inductive event : Type :=
| ECall (rq : request) (rp : reply)
| EPrint (parts : list value)
| ESleep (seconds : Z).

Inductive outcome (A : Type) : Type :=
| Ret (a : A)
| Raise (e : exn)
| OutOfFuel.

Arguments Ret {A} a.
Arguments Raise {A} e.
Arguments OutOfFuel {A}.

(** ** The script *)

Section Script.

(** The remote side: its state and how it answers a request. *)
Variable W : Type.
Variable compute : request -> W -> reply * W.

(** A computation runs from a state of the remote side to an outcome,
    the state it leaves behind and the events it produced, oldest
    first. *)
Definition M (A : Type) : Type := W -> outcome A * W * list event.

Definition ret {A} (a : A) : M A := fun w => (Ret a, w, []).

Definition raise {A} (e : exn) : M A := fun w => (Raise e, w, []).

Definition diverge {A} : M A := fun w => (OutOfFuel, w, []).

Definition bind {A B} (m : M A) (k : A -> M B) : M B :=
  fun w =>
    match m w with
    | (Ret a, w1, t1) =>
        match k a w1 with
        | (o, w2, t2) => (o, w2, (t1 ++ t2)%list)
        end
    | (Raise e, w1, t1) => (Raise e, w1, t1)
    | (OutOfFuel, w1, t1) => (OutOfFuel, w1, t1)
    end.

Notation "x <- m ;; k" := (bind m (fun x => k))
  (at level 100, m at next level, right associativity).
Notation "m ;; k" := (bind m (fun _ => k))
  (at level 100, right associativity).

Definition execute (rq : request) : M dict :=
  fun w =>
    match compute rq w with
    | (Response d, w') => (Ret d, w', [ECall rq (Response d)])
    | (Failure e, w') => (Raise (HttpError e), w', [ECall rq (Failure e)])
    end.

Definition print (parts : list value) : M unit :=
  fun w => (Ret tt, w, [EPrint parts]).

Definition sleep (seconds : Z) : M unit :=
  fun w => (Ret tt, w, [ESleep seconds]).

(** [d[key]] as a statement that may raise. *)
Definition subscript (d : dict) (key : string) : M value :=
  match dict_lookup key d with
  | Some v => ret v
  | None => raise (KeyError key)
  end.

(** The [while True] of [wait_for_operation]. *)
Fixpoint wait_for_operation_loop (fuel : nat)
    (project zone : string) (operation : value) : M unit :=
  match fuel with
  | O => diverge
  | S fuel' =>
      result <- execute (ZoneOperationsGet project zone operation) ;;
      if eq_str (dict_get "status" result) "DONE" then
        if dict_mem "error" result then
          error <- subscript result "error" ;;
          raise (Exception error)
        else ret tt
      else
        sleep 1 ;;
        wait_for_operation_loop fuel' project zone operation
  end.

Definition wait_for_operation (fuel : nat)
    (project zone : string) (operation : value) : M unit :=
  print [VStr "Waiting for operation to finish"] ;;
  wait_for_operation_loop fuel project zone operation.

(** The [while True] of [wait_for_global_operation]. *)
Fixpoint wait_for_global_operation_loop (fuel : nat)
    (project : string) (operation : value) : M unit :=
  match fuel with
  | O => diverge
  | S fuel' =>
      result <- execute (GlobalOperationsGet project operation) ;;
      if eq_str (dict_get "status" result) "DONE" then
        if dict_mem "error" result then
          error <- subscript result "error" ;;
          raise (Exception error)
        else ret tt
      else
        sleep 1 ;;
        wait_for_global_operation_loop fuel' project operation
  end.

Definition wait_for_global_operation (fuel : nat)
    (project : string) (operation : value) : M unit :=
  print [VStr "waiting for a global operation to finish"] ;;
  wait_for_global_operation_loop fuel project operation.

(** The [while True] inside [create_address]: it leaves on [DONE] and
    never looks at the [error] key. *)
Fixpoint create_address_loop (fuel : nat)
    (project region : string) (operation_name : value) : M unit :=
  match fuel with
  | O => diverge
  | S fuel' =>
      result <- execute (RegionOperationsGet project region operation_name) ;;
      if eq_str (dict_get "status" result) "DONE" then ret tt
      else
        sleep 1 ;;
        create_address_loop fuel' project region operation_name
  end.

(** [operation['name']] is written inside the loop in the source; it reads
    the same dict at every round, so it is evaluated once, ahead of the
    loop. *)
Definition create_address (fuel : nat)
    (project region address_name : string) : M value :=
  operation <- execute (AddressesInsert project region
                          (VDict [("name", VStr address_name)])) ;;
  operation_name <- subscript operation "name" ;;
  create_address_loop fuel project region operation_name ;;
  address <- execute (AddressesGet project region address_name) ;;
  subscript address "address".

Definition firewall_body (firewall_name : string) : value :=
  VDict [
    ("name", VStr firewall_name);
    ("allowed", VList [
       VDict [("IPProtocol", VStr "tcp");
              ("ports", VList [VStr "22"; VStr "80"])]
     ]);
    ("direction", VStr "INGRESS");
    ("sourceRanges", VList [VStr "0.0.0.0/0"])
  ].

Definition create_firewall_rule (fuel : nat)
    (project firewall_name : string) : M unit :=
  print [VStr ("Creating firewall rule '" ++ firewall_name ++ "' ")] ;;
  operation <- execute (FirewallsInsert project
                          (firewall_body firewall_name)) ;;
  operation_name <- subscript operation "name" ;;
  wait_for_global_operation fuel project operation_name ;;
  print [VStr "Firewall rule created."].

Definition instance_config (zone instance_name : string) (static_ip : value)
    (machine_type source_image : string) (disk_size_gb : Z) : value :=
  let machine_type_full :=
    "zones/" ++ zone ++ "/machineTypes/" ++ machine_type in
  VDict [
    ("name", VStr instance_name);
    ("machine_type", VStr machine_type_full);
    ("disks", VList [
       VDict [
         ("boot", VBool true);
         ("autoDelete", VBool true);
         ("initializeParams", VDict [
            ("sourceImage", VStr source_image);
            ("diskSizeGb", VInt disk_size_gb)
          ])
       ]
     ]);
    ("networkInterfaces", VList [
       VDict [
         ("network", VStr "global/networks/default");
         ("accessConfigs", VList [
            VDict [
              ("name", VStr "External_NAT");
              ("type", VStr "ONE_TO_ONE_NAT");
              ("natIP", static_ip)
            ]
          ])
       ]
     ]);
    ("tags", VDict [
       ("items", VList [VStr "http-server"; VStr "ssh-server"])
     ])
  ].

Definition create_instance (fuel : nat)
    (project zone instance_name : string) (static_ip : value)
    (machine_type source_image : string) (disk_size_gb : Z) : M unit :=
  print [VStr ("Creating VM instance '" ++ instance_name
               ++ "' in zone '" ++ zone ++ "'")] ;;
  operation <- execute (InstancesInsert project zone
                          (instance_config zone instance_name static_ip
                             machine_type source_image disk_size_gb)) ;;
  operation_name <- subscript operation "name" ;;
  wait_for_operation fuel project zone operation_name ;;
  print [VStr "VM INSTANCE CREATED SUCCESSFULLY!"].

Definition project : string := "cloud-assignment-450118".
Definition region : string := "us-central1".
Definition zone : string := "us-central1-a".
Definition address_name : string := "vm-static-ip".
Definition firewall_name : string := "allow-ssh-http".
Definition instance_name : string := "cloud-ca-vm-instance".
Definition machine_type : string := "n1-standard-2".
Definition disk_size_gb : Z := 250.
Definition source_image : string :=
  "projects/ubuntu-os-cloud/global/images/family/ubuntu-2004-lts".

(** ** Vocabulary for the statements *)

(** The three places where the script polls an operation. *)
Inductive scope : Type :=
| Zonal (zone : string)
| Regional (region : string)
| Global.

Definition poll_request (s : scope) (project : string) (operation : value)
    : request :=
  match s with
  | Zonal zone => ZoneOperationsGet project zone operation
  | Regional region => RegionOperationsGet project region operation
  | Global => GlobalOperationsGet project operation
  end.

Definition scope_loop (s : scope) (fuel : nat) (project : string)
    (operation : value) : M unit :=
  match s with
  | Zonal zone => wait_for_operation_loop fuel project zone operation
  | Regional region => create_address_loop fuel project region operation
  | Global => wait_for_global_operation_loop fuel project operation
  end.

(** Only the zonal and the global loop read the [error] key. *)
Definition checks_error (s : scope) : bool :=
  match s with
  | Regional _ => false
  | _ => true
  end.

Definition status_done (rp : reply) : bool :=
  match rp with
  | Response result => eq_str (dict_get "status" result) "DONE"
  | Failure _ => false
  end.

(** The poll was answered, with a status other than [DONE]. *)
Definition status_pending (rp : reply) : bool :=
  match rp with
  | Response result => negb (eq_str (dict_get "status" result) "DONE")
  | Failure _ => false
  end.

(** The remote side after [n] executions of [rq] from [w], and the
    answer to the next one. *)
Fixpoint after_polls (rq : request) (n : nat) (w : W) : W :=
  match n with
  | O => w
  | S n' => after_polls rq n' (snd (compute rq w))
  end.

Definition reply_at (rq : request) (n : nat) (w : W) : reply :=
  fst (compute rq (after_polls rq n w)).

(** The first [n] polls all come back non-terminal. *)
Fixpoint pending_for (rq : request) (n : nat) (w : W) : bool :=
  match n with
  | O => true
  | S n' =>
      status_pending (fst (compute rq w))
      && pending_for rq n' (snd (compute rq w))
  end.

(** The first [DONE] arrives after exactly [n] non-terminal polls. *)
Definition done_after (rq : request) (n : nat) (w : W) : bool :=
  pending_for rq n w && status_done (reply_at rq n w).

(** What [n] rounds of poll-then-sleep leave in the trace. *)
Fixpoint poll_trace (rq : request) (n : nat) (w : W) : list event :=
  match n with
  | O => []
  | S n' =>
      ECall rq (fst (compute rq w)) :: ESleep 1
        :: poll_trace rq n' (snd (compute rq w))
  end.

(** How a loop leaves on the reply that ends it. *)
Definition loop_exit (check : bool) (rp : reply) : outcome unit :=
  match rp with
  | Failure detail => Raise (HttpError detail)
  | Response result =>
      if check then
        match dict_lookup "error" result with
        | Some payload => Raise (Exception payload)
        | None => Ret tt
        end
      else Ret tt
  end.

(** The three loops differ in the request they send and in whether they
    read the [error] key; [poll_loop] is their common shape, used for
    the proofs only. *)
Fixpoint poll_loop (rq : request) (check : bool) (fuel : nat) : M unit :=
  match fuel with
  | O => diverge
  | S fuel' =>
      result <- execute rq ;;
      if eq_str (dict_get "status" result) "DONE" then
        if check && dict_mem "error" result then
          error <- subscript result "error" ;;
          raise (Exception error)
        else ret tt
      else
        sleep 1 ;;
        poll_loop rq check fuel'
  end.

End Script.

Arguments ret {W A} a.
Arguments raise {W A} e.
Arguments diverge {W A}.
Arguments bind {W A B} m k.

(** ** The entry point *)

Section Main.

Variable W : Type.

(** [discovery.build(serviceName, version)] of the client library. *)
Variable discovery_build : string -> string -> W -> built W * W.

Notation "x <- m ;; k" := (bind m (fun x => k))
  (at level 100, m at next level, right associativity).
Notation "m ;; k" := (bind m (fun _ => k))
  (at level 100, right associativity).

Definition build (serviceName version : string)
    : M W (request -> W -> reply * W) :=
  fun w =>
    match discovery_build serviceName version w with
    | (Built compute, w') => (Ret compute, w', [])
    | (BuildFailure detail, w') => (Raise (BuildError detail), w', [])
    end.

(** The names and sizes of [main] are the constants [project] to
    [source_image] above; assigning them cannot fail, so the first thing
    that can is the construction of the client. *)
Definition main (fuel : nat) : M W unit :=
  compute <- build "compute" "v1" ;;
  static_ip <- create_address W compute fuel project region address_name ;;
  print W [VStr "reserved static IP: "; static_ip] ;;
  create_firewall_rule W compute fuel project firewall_name ;;
  create_instance W compute fuel project zone instance_name static_ip
    machine_type source_image disk_size_gb.

End Main.

(** ** Reading a trace *)

Definition is_status_query (e : event) : bool :=
  match e with
  | ECall (ZoneOperationsGet _ _ _) _
  | ECall (GlobalOperationsGet _ _) _
  | ECall (RegionOperationsGet _ _ _) _ => true
  | _ => false
  end.

Definition is_sleep (e : event) : bool :=
  match e with
  | ESleep _ => true
  | _ => false
  end.

Definition is_poll_event (e : event) : bool :=
  is_status_query e || is_sleep e.

(** The bodies of the firewall-create submissions of a trace, in order. *)
Fixpoint firewall_bodies (t : list event) : list value :=
  match t with
  | [] => []
  | ECall (FirewallsInsert _ body) _ :: t' => body :: firewall_bodies t'
  | _ :: t' => firewall_bodies t'
  end.

(** The bodies of the instance-create submissions of a trace, in order. *)
Fixpoint instance_bodies (t : list event) : list value :=
  match t with
  | [] => []
  | ECall (InstancesInsert _ _ body) _ :: t' => body :: instance_bodies t'
  | _ :: t' => instance_bodies t'
  end.

(** The address fetches of a trace. *)
Fixpoint address_fetches (t : list event) : list reply :=
  match t with
  | [] => []
  | ECall (AddressesGet _ _ _) rp :: t' => rp :: address_fetches t'
  | _ :: t' => address_fetches t'
  end.

Definition and_then {A B} (o : option A) (f : A -> option B) : option B :=
  match o with
  | Some a => f a
  | None => None
  end.

(** [body['networkInterfaces'][0]['accessConfigs'][0]['natIP']]. *)
Definition nat_ip (body : value) : option value :=
  and_then (item "networkInterfaces" body) (fun nis =>
  and_then (index 0 nis) (fun ni =>
  and_then (item "accessConfigs" ni) (fun acs =>
  and_then (index 0 acs) (fun ac =>
  item "natIP" ac)))).

(** ** Two mock clients *)

(** Answers from a script, one reply per request whatever the request;
    an exhausted script fails the call. *)
Definition scripted (rq : request) (q : list reply) : reply * list reply :=
  match q with
  | [] => (Failure VNone, [])
  | rp :: q' => (rp, q')
  end.

(** A [discovery.build] that hands out the given client and leaves the
    remote side as it is, and one that finds no credentials. *)
Definition built_with {W : Type} (compute : request -> W -> reply * W)
    (serviceName version : string) (w : W) : built W * W :=
  (Built compute, w).


(** An operation that stays [RUNNING] for ever. *)
Definition stuck (rq : request) (w : unit) : reply * unit :=
  (Response [("status", VStr "RUNNING")], tt).

Definition running : reply := Response [("status", VStr "RUNNING")].
Definition done : reply := Response [("status", VStr "DONE")].
Definition started (name : string) : reply :=
  Response [("name", VStr name); ("status", VStr "RUNNING")].
Definition quota_exceeded : value :=
  VDict [("message", VStr "quota exceeded")].
Definition done_with_error : reply :=
  Response [("status", VStr "DONE"); ("error", quota_exceeded)].
Definition address_resource (ip : string) : reply :=
  Response [("name", VStr "vm-static-ip"); ("address", VStr ip)].
Definition running_with_error : reply :=
  Response [("status", VStr "RUNNING"); ("error", quota_exceeded)].

(** Every operation is [DONE] at its first poll and the address fetch
    answers 34.1.2.3. *)
Definition all_done_at_once : list reply :=
  [started "operation-address"; done; address_resource "34.1.2.3";
   started "operation-firewall"; done;
   started "operation-instance"; done].

(** The address allocation ends with an error payload; the rest goes
    through. *)
Definition address_operation_fails : list reply :=
  [started "operation-address"; done_with_error; address_resource "34.1.2.3";
   started "operation-firewall"; done;
   started "operation-instance"; done].

(** The firewall operation ends with an error payload. *)
Definition firewall_operation_fails : list reply :=
  [started "operation-address"; done; address_resource "34.1.2.3";
   started "operation-firewall"; running; done_with_error].

(** ** Further vocabulary *)


(** The answers to the regional status queries of a trace, in order. *)
Fixpoint region_polls (t : list event) : list reply :=
  match t with
  | [] => []
  | ECall (RegionOperationsGet _ _ _) rp :: t' => rp :: region_polls t'
  | _ :: t' => region_polls t'
  end.

(** ** The poll loops *)

Section Loops.

Context {W : Type} (compute : request -> W -> reply * W).

Ltac step_client rq w :=
  unfold bind, execute, sleep, subscript, ret, raise, dict_mem; simpl;
  destruct (compute rq w) as [[result | detail] w1] eqn:Hstep; simpl.

(** Each loop of the script is an instance of the common shape. *)
Lemma scope_loop_poll_loop (s : scope) (project : string) (operation : value) :
  forall fuel w,
    scope_loop W compute s fuel project operation w
    = poll_loop W compute (poll_request s project operation)
        (checks_error s) fuel w.
Proof.
  induction fuel as [| fuel IH]; intro w.
  - destruct s; reflexivity.
  - destruct s as [zone | region |]; simpl in *.
    + step_client (ZoneOperationsGet project zone operation) w;
        [| reflexivity].
      destruct (eq_str (dict_get "status" result) "DONE");
        [reflexivity |].
      rewrite IH. reflexivity.
    + step_client (RegionOperationsGet project region operation) w;
        [| reflexivity].
      destruct (eq_str (dict_get "status" result) "DONE");
        [reflexivity |].
      rewrite IH. reflexivity.
    + step_client (GlobalOperationsGet project operation) w;
        [| reflexivity].
      destruct (eq_str (dict_get "status" result) "DONE");
        [reflexivity |].
      rewrite IH. reflexivity.
Qed.

Variable rq : request.
Variable check : bool.

(** A non-terminal answer costs one poll and one sleep, and the loop goes
    round again. *)
Lemma poll_loop_step_pending (fuel : nat) (w : W) :
  status_pending (fst (compute rq w)) = true ->
  poll_loop W compute rq check (S fuel) w
  = match poll_loop W compute rq check fuel (snd (compute rq w)) with
    | (o, w', t) =>
        (o, w', ECall rq (fst (compute rq w)) :: ESleep 1 :: t)
    end.
Proof.
  intro Hp. simpl. step_client rq w; simpl in Hp; [| discriminate].
  destruct (eq_str (dict_get "status" result) "DONE"); [discriminate |].
  destruct (poll_loop W compute rq check fuel w1) as [[o w'] t].
  reflexivity.
Qed.

(** Any other answer ends the loop on the spot. *)
Lemma poll_loop_step_exit (fuel : nat) (w : W) :
  status_pending (fst (compute rq w)) = false ->
  poll_loop W compute rq check (S fuel) w
  = (loop_exit check (fst (compute rq w)), snd (compute rq w),
     [ECall rq (fst (compute rq w))]).
Proof.
  intro Hp. simpl. step_client rq w; simpl in Hp; [| reflexivity].
  destruct (eq_str (dict_get "status" result) "DONE"); [| discriminate].
  destruct check; simpl; [| reflexivity].
  destruct (dict_lookup "error" result); reflexivity.
Qed.

Lemma done_not_pending (rp : reply) :
  status_done rp = true -> status_pending rp = false.
Proof.
  destruct rp as [result | detail]; simpl; [| reflexivity].
  intros ->. reflexivity.
Qed.

Lemma pending_for_le (n m : nat) :
  forall w, pending_for W compute rq n w = true -> (m <= n)%nat ->
            pending_for W compute rq m w = true.
Proof.
  revert m. induction n as [| n IH]; intros m w Hp Hle.
  - replace m with O by lia. reflexivity.
  - destruct m as [| m]; [reflexivity |].
    simpl in *. apply andb_true_iff in Hp as [H1 H2].
    rewrite H1. simpl. apply IH; [assumption | lia].
Qed.

(** While the answers stay non-terminal the loop is still running. *)
Lemma poll_loop_pending (fuel : nat) :
  forall w,
    pending_for W compute rq fuel w = true ->
    poll_loop W compute rq check fuel w
    = (OutOfFuel, after_polls W compute rq fuel w,
       poll_trace W compute rq fuel w).
Proof.
  induction fuel as [| fuel IH]; intros w Hp; [reflexivity |].
  simpl in Hp. apply andb_true_iff in Hp as [H1 H2].
  rewrite (poll_loop_step_pending fuel w H1), (IH _ H2). reflexivity.
Qed.

(** With the first [DONE] after [n] non-terminal polls and fuel for more
    than [n] rounds, the loop leaves on poll [n + 1]. *)
Lemma poll_loop_done (n : nat) :
  forall fuel w,
    pending_for W compute rq n w = true ->
    status_pending (reply_at W compute rq n w) = false ->
    (n < fuel)%nat ->
    poll_loop W compute rq check fuel w
    = (loop_exit check (reply_at W compute rq n w),
       after_polls W compute rq (S n) w,
       (poll_trace W compute rq n w
          ++ [ECall rq (reply_at W compute rq n w)])%list).
Proof.
  induction n as [| n IH]; intros fuel w Hp Hd Hlt;
    (destruct fuel as [| fuel]; [lia |]).
  - unfold reply_at in *. simpl in *.
    apply poll_loop_step_exit. assumption.
  - simpl in Hp. apply andb_true_iff in Hp as [H1 H2].
    rewrite (poll_loop_step_pending fuel w H1).
    rewrite (IH fuel (snd (compute rq w)) H2 Hd) by lia.
    reflexivity.
Qed.

(** Conversely a loop that has left did so on the first answer that was
    not a non-terminal status. *)
Lemma poll_loop_inv (fuel : nat) :
  forall w o w' t,
    poll_loop W compute rq check fuel w = (o, w', t) ->
    o <> OutOfFuel ->
    exists n,
      (n < fuel)%nat
      /\ pending_for W compute rq n w = true
      /\ status_pending (reply_at W compute rq n w) = false
      /\ o = loop_exit check (reply_at W compute rq n w)
      /\ w' = after_polls W compute rq (S n) w
      /\ t = (poll_trace W compute rq n w
                ++ [ECall rq (reply_at W compute rq n w)])%list.
Proof.
  induction fuel as [| fuel IH]; intros w o w' t Hrun Ho.
  - inversion Hrun; subst. congruence.
  - destruct (status_pending (fst (compute rq w))) eqn:Hp.
    + rewrite (poll_loop_step_pending fuel w Hp) in Hrun.
      destruct (poll_loop W compute rq check fuel (snd (compute rq w)))
        as [[o1 w1] t1] eqn:Hrec.
      inversion Hrun; subst.
      destruct (IH _ _ _ _ Hrec Ho) as (n & Hlt & Hpn & Hx & Ho1 & Hw & Ht).
      exists (S n). simpl. rewrite Hp. simpl.
      repeat split; try assumption; try lia.
      rewrite Ht. reflexivity.
    + rewrite (poll_loop_step_exit fuel w Hp) in Hrun.
      inversion Hrun; subst.
      exists O. unfold reply_at. simpl.
      repeat split; try assumption; lia.
Qed.

End Loops.

(** ** What a loop leaves in the trace *)

Lemma firewall_bodies_app (t1 t2 : list event) :
  firewall_bodies (t1 ++ t2) = (firewall_bodies t1 ++ firewall_bodies t2)%list.
Proof.
  induction t1 as [| e t1 IH]; [reflexivity |].
  destruct e as [[] rp | parts | seconds]; simpl; rewrite ?IH; reflexivity.
Qed.

Lemma instance_bodies_app (t1 t2 : list event) :
  instance_bodies (t1 ++ t2) = (instance_bodies t1 ++ instance_bodies t2)%list.
Proof.
  induction t1 as [| e t1 IH]; [reflexivity |].
  destruct e as [[] rp | parts | seconds]; simpl; rewrite ?IH; reflexivity.
Qed.

Lemma address_fetches_app (t1 t2 : list event) :
  address_fetches (t1 ++ t2) = (address_fetches t1 ++ address_fetches t2)%list.
Proof.
  induction t1 as [| e t1 IH]; [reflexivity |].
  destruct e as [[] rp | parts | seconds]; simpl; rewrite ?IH; reflexivity.
Qed.

(** Polls and sleeps submit nothing and fetch no address. *)
Lemma poll_events_submit_nothing (t : list event) :
  forallb is_poll_event t = true ->
  firewall_bodies t = [] /\ instance_bodies t = [] /\ address_fetches t = [].
Proof.
  induction t as [| e t IH]; intro H; [repeat split |].
  simpl in H. apply andb_true_iff in H as [He Ht].
  destruct (IH Ht) as (H1 & H2 & H3).
  destruct e as [[] rp | parts | seconds]; simpl in *;
    try discriminate; repeat split; assumption.
Qed.

Section Traces.

Context {W : Type} (compute : request -> W -> reply * W).

Lemma poll_trace_poll_events (s : scope) (project : string)
    (operation : value) (n : nat) :
  forall w,
    forallb is_poll_event
      (poll_trace W compute (poll_request s project operation) n w) = true.
Proof.
  induction n as [| n IH]; intro w; [reflexivity |].
  simpl. rewrite IH. destruct s; reflexivity.
Qed.

Lemma poll_trace_queries (s : scope) (project : string)
    (operation : value) (n : nat) :
  forall w,
    List.length (filter is_status_query
              (poll_trace W compute (poll_request s project operation) n w))
    = n
    /\ List.length (filter is_sleep
                 (poll_trace W compute (poll_request s project operation) n w))
       = n.
Proof.
  induction n as [| n IH]; intro w; [split; reflexivity |].
  destruct s; simpl in *;
    match goal with
    | |- context [poll_trace _ _ _ n ?w'] => destruct (IH w') as [Hq Hs]
    end;
    rewrite Hq, Hs; split; reflexivity.
Qed.

(** Whatever the fuel and the answers, a loop only polls and sleeps. *)
Lemma scope_loop_poll_events (s : scope) (project : string)
    (operation : value) (fuel : nat) :
  forall w,
    forallb is_poll_event
      (snd (scope_loop W compute s fuel project operation w)) = true.
Proof.
  intro w. rewrite scope_loop_poll_loop. revert w.
  induction fuel as [| fuel IH]; intro w; [reflexivity |].
  destruct (status_pending
              (fst (compute (poll_request s project operation) w))) eqn:Hp.
  - rewrite (poll_loop_step_pending compute _ _ fuel w Hp).
    specialize (IH (snd (compute (poll_request s project operation) w))).
    destruct (poll_loop W compute (poll_request s project operation)
                (checks_error s) fuel
                (snd (compute (poll_request s project operation) w)))
      as [[o w'] t].
    simpl in *. rewrite IH. destruct s; reflexivity.
  - rewrite (poll_loop_step_exit compute _ _ fuel w Hp).
    destruct s; reflexivity.
Qed.

End Traces.

(** ** Properties of the operation waiters *)

Section Waiters.

Context {W : Type} (compute : request -> W -> reply * W).

Lemma done_after_split (rq : request) (n : nat) (w : W) :
  done_after W compute rq n w = true ->
  pending_for W compute rq n w = true
  /\ status_done (reply_at W compute rq n w) = true
  /\ status_pending (reply_at W compute rq n w) = false.
Proof.
  unfold done_after. intro H. apply andb_true_iff in H as [H1 H2].
  auto using done_not_pending.
Qed.

Lemma loop_exit_done (check : bool) (rp : reply) :
  status_done rp = true -> loop_exit check rp <> OutOfFuel.
Proof.
  destruct rp as [result | detail]; simpl; [| discriminate].
  intros _. destruct check; [| discriminate].
  destruct (dict_lookup "error" result); discriminate.
Qed.

(** C4.  Each poll loop (zonal, global, and the regional one inside the
    address provisioner) leaves, by returning or by raising, exactly on
    the first poll whose status is [DONE]: with the first [DONE] after
    [n] non-terminal polls the finished run shows [n] poll-and-sleep
    rounds and then the terminal poll; while the first [n] statuses are
    non-terminal the loop has not left after any [fuel <= n] rounds; and
    if no poll is ever [DONE] the loop never leaves, whatever the
    fuel. *)
Theorem poll_loop_leaves_only_on_first_done
    (s : scope) (project : string) (operation : value) (w : W) (n : nat) :
  (done_after W compute (poll_request s project operation) n w = true ->
   forall fuel, (n < fuel)%nat ->
     scope_loop W compute s fuel project operation w
     = (loop_exit (checks_error s)
          (reply_at W compute (poll_request s project operation) n w),
        after_polls W compute (poll_request s project operation) (S n) w,
        (poll_trace W compute (poll_request s project operation) n w
           ++ [ECall (poll_request s project operation)
                 (reply_at W compute (poll_request s project operation)
                    n w)])%list)
     /\ loop_exit (checks_error s)
          (reply_at W compute (poll_request s project operation) n w)
        <> OutOfFuel)
  /\ (pending_for W compute (poll_request s project operation) n w = true ->
      forall fuel, (fuel <= n)%nat ->
        scope_loop W compute s fuel project operation w
        = (OutOfFuel,
           after_polls W compute (poll_request s project operation) fuel w,
           poll_trace W compute (poll_request s project operation) fuel w))
  /\ ((forall k,
         pending_for W compute (poll_request s project operation) k w = true) ->
      forall fuel,
        fst (fst (scope_loop W compute s fuel project operation w))
        = OutOfFuel).
Proof.
  split; [| split].
  - intros H fuel Hlt. apply done_after_split in H as (Hp & Hd & Hx).
    split; [| apply loop_exit_done; assumption].
    rewrite scope_loop_poll_loop. apply poll_loop_done; assumption.
  - intros Hp fuel Hle. rewrite scope_loop_poll_loop.
    apply poll_loop_pending. apply (pending_for_le compute _ n); assumption.
  - intros Hall fuel. rewrite scope_loop_poll_loop.
    rewrite poll_loop_pending by apply Hall. reflexivity.
Qed.

(** C7.  When the status is non-terminal for exactly [n] consecutive
    polls and [DONE] on the next, the zonal waiter returns (or raises,
    if that poll carries an error) after exactly [n + 1] status queries
    and [n] sleeps: one query more than the non-terminal polls before
    the first [DONE]. *)
Theorem wait_for_operation_query_count
    (project zone : string) (operation : value) (w : W) (n fuel : nat) :
  done_after W compute (ZoneOperationsGet project zone operation) n w = true ->
  (n < fuel)%nat ->
  fst (fst (wait_for_operation W compute fuel project zone operation w))
  = loop_exit true
      (reply_at W compute (ZoneOperationsGet project zone operation) n w)
  /\ List.length
       (filter is_status_query
          (snd (wait_for_operation W compute fuel project zone operation w)))
     = S n
  /\ List.length
       (filter is_sleep
          (snd (wait_for_operation W compute fuel project zone operation w)))
     = n.
Proof.
  intros Hd Hlt. apply done_after_split in Hd as (Hp & Hd & Hx).
  unfold wait_for_operation, bind, print.
  pose proof (scope_loop_poll_loop compute (Zonal zone) project operation
                fuel w) as Hloop.
  simpl in Hloop. rewrite Hloop.
  rewrite (poll_loop_done compute _ _ n fuel w Hp Hx Hlt).
  destruct (poll_trace_queries compute (Zonal zone) project operation n w)
    as [Hq Hs].
  simpl in *. rewrite !filter_app, !length_app, Hq, Hs. simpl.
  repeat split; lia.
Qed.

(** C9.  For the zonal and for the global wait: when the first [DONE]
    poll result, reached after [n] non-terminal polls, has no [error]
    key, the call returns normally. *)
Theorem wait_returns_normally_without_error
    (project zone : string) (operation : value) (w : W) (n fuel : nat)
    (result : dict) :
  (done_after W compute (ZoneOperationsGet project zone operation) n w = true ->
   reply_at W compute (ZoneOperationsGet project zone operation) n w
   = Response result ->
   dict_mem "error" result = false ->
   (n < fuel)%nat ->
   wait_for_operation W compute fuel project zone operation w
   = (Ret tt,
      after_polls W compute (ZoneOperationsGet project zone operation)
        (S n) w,
      EPrint [VStr "Waiting for operation to finish"]
        :: (poll_trace W compute (ZoneOperationsGet project zone operation)
              n w
            ++ [ECall (ZoneOperationsGet project zone operation)
                  (Response result)])%list))
  /\ (done_after W compute (GlobalOperationsGet project operation) n w = true ->
      reply_at W compute (GlobalOperationsGet project operation) n w
      = Response result ->
      dict_mem "error" result = false ->
      (n < fuel)%nat ->
      wait_for_global_operation W compute fuel project operation w
      = (Ret tt,
         after_polls W compute (GlobalOperationsGet project operation)
           (S n) w,
         EPrint [VStr "waiting for a global operation to finish"]
           :: (poll_trace W compute (GlobalOperationsGet project operation)
                 n w
               ++ [ECall (GlobalOperationsGet project operation)
                     (Response result)])%list)).
Proof.
  split; intros Hd Hr He Hlt;
    apply done_after_split in Hd as (Hp & Hd & Hx).
  - unfold wait_for_operation, bind, print.
    pose proof (scope_loop_poll_loop compute (Zonal zone) project operation
                  fuel w) as Hloop.
    simpl in Hloop. rewrite Hloop.
    rewrite (poll_loop_done compute _ _ n fuel w Hp Hx Hlt), Hr.
    unfold dict_mem in He. simpl.
    destruct (dict_lookup "error" result); [discriminate | reflexivity].
  - unfold wait_for_global_operation, bind, print.
    pose proof (scope_loop_poll_loop compute Global project operation
                  fuel w) as Hloop.
    simpl in Hloop. rewrite Hloop.
    rewrite (poll_loop_done compute _ _ n fuel w Hp Hx Hlt), Hr.
    unfold dict_mem in He. simpl.
    destruct (dict_lookup "error" result); [discriminate | reflexivity].
Qed.

(** C10.  In every poll loop an [error] key on a poll result whose
    status is not [DONE] is ignored: the loop does not raise there, it
    sleeps and polls again.  And a loop that raises the script's
    [Exception] does so on the poll at which the status is [DONE] for the
    first time, with the payload of that very poll. *)
Theorem error_on_pending_poll_is_ignored
    (s : scope) (project : string) (operation : value) (w : W) (fuel : nat) :
  (forall result payload,
     fst (compute (poll_request s project operation) w) = Response result ->
     eq_str (dict_get "status" result) "DONE" = false ->
     dict_lookup "error" result = Some payload ->
     scope_loop W compute s (S fuel) project operation w
     = match scope_loop W compute s fuel project operation
               (snd (compute (poll_request s project operation) w)) with
       | (o, w', t) =>
           (o, w',
            ECall (poll_request s project operation) (Response result)
              :: ESleep 1 :: t)
       end)
  /\ (forall payload w' t,
        scope_loop W compute s fuel project operation w
        = (Raise (Exception payload), w', t) ->
        exists n result,
          (n < fuel)%nat
          /\ done_after W compute (poll_request s project operation) n w
             = true
          /\ reply_at W compute (poll_request s project operation) n w
             = Response result
          /\ dict_lookup "error" result = Some payload
          /\ t = (poll_trace W compute (poll_request s project operation)
                    n w
                  ++ [ECall (poll_request s project operation)
                        (Response result)])%list).
Proof.
  split.
  - intros result payload Hr Hs _.
    rewrite !scope_loop_poll_loop.
    rewrite poll_loop_step_pending
      by (rewrite Hr; simpl; rewrite Hs; reflexivity).
    rewrite Hr. reflexivity.
  - intros payload w' t Hrun. rewrite scope_loop_poll_loop in Hrun.
    apply poll_loop_inv in Hrun as (n & Hlt & Hp & Hx & Ho & Hw & Ht);
      [| discriminate].
    destruct (reply_at W compute (poll_request s project operation) n w)
      as [result | detail] eqn:Hr; simpl in Ho; [| discriminate].
    destruct (checks_error s); [| discriminate].
    destruct (dict_lookup "error" result) as [payload' |] eqn:He;
      [| discriminate].
    inversion Ho; subst payload'.
    exists n, result. unfold done_after. rewrite Hp, Hr. simpl in *.
    destruct (eq_str (dict_get "status" result) "DONE");
      [| discriminate].
    repeat split; try assumption; reflexivity.
Qed.

(** The zonal and the global loop hand the payload of the terminal poll
    to the caller as it came. *)
Lemma checked_loop_raises_payload
    (s : scope) (project : string) (operation : value) (w : W) (n fuel : nat)
    (result : dict) (payload : value) :
  checks_error s = true ->
  done_after W compute (poll_request s project operation) n w = true ->
  reply_at W compute (poll_request s project operation) n w
  = Response result ->
  dict_lookup "error" result = Some payload ->
  (n < fuel)%nat ->
  fst (fst (scope_loop W compute s fuel project operation w))
  = Raise (Exception payload).
Proof.
  intros Hc Hd Hr He Hlt. apply done_after_split in Hd as (Hp & Hd & Hx).
  rewrite scope_loop_poll_loop.
  rewrite (poll_loop_done compute _ _ n fuel w Hp Hx Hlt), Hr, Hc.
  simpl. rewrite He. reflexivity.
Qed.

(** The regional loop inside [create_address] never raises the script's
    [Exception], whatever the terminal poll carries. *)
Lemma create_address_loop_never_raises_payload
    (project region : string) (operation : value) (w : W) (fuel : nat)
    (payload : value) :
  fst (fst (create_address_loop W compute fuel project region operation w))
  <> Raise (Exception payload).
Proof.
  pose proof (scope_loop_poll_loop compute (Regional region) project
                operation fuel w) as Hloop.
  simpl in Hloop. rewrite Hloop.
  destruct (poll_loop W compute (RegionOperationsGet project region operation)
              false fuel w) as [[o w'] t] eqn:Hrun.
  destruct o as [[] | e |]; simpl; try discriminate.
  apply poll_loop_inv in Hrun as (n & _ & _ & _ & Ho & _); [| discriminate].
  destruct (reply_at W compute (RegionOperationsGet project region operation)
              n w); simpl in Ho; congruence.
Qed.

End Waiters.

(** ** The address provisioner *)

Section Address.

Context {W : Type} (compute : request -> W -> reply * W).

Variables project region address_name : string.

(** Enough fuel and well-formed answers give the fetched value. *)
Lemma create_address_run (w w1 w2 : W) (operation address : dict)
    (operation_name v : value) (n fuel : nat) :
  compute
    (AddressesInsert project region
       (VDict [("name", VStr address_name)])) w = (Response operation, w1) ->
  dict_lookup "name" operation = Some operation_name ->
  done_after W compute (RegionOperationsGet project region operation_name)
    n w1 = true ->
  (n < fuel)%nat ->
  compute (AddressesGet project region address_name)
    (after_polls W compute
       (RegionOperationsGet project region operation_name) (S n) w1)
  = (Response address, w2) ->
  dict_lookup "address" address = Some v ->
  create_address W compute fuel project region address_name w
  = (Ret v, w2,
     ECall
       (AddressesInsert project region
          (VDict [("name", VStr address_name)])) (Response operation)
       :: (poll_trace W compute
             (RegionOperationsGet project region operation_name) n w1
           ++ [ECall (RegionOperationsGet project region operation_name)
                 (reply_at W compute
                    (RegionOperationsGet project region operation_name)
                    n w1);
               ECall
                 (AddressesGet project region address_name)
                 (Response address)])%list).
Proof.
  intros Hins Hname Hd Hlt Hget Haddr.
  apply done_after_split in Hd as (Hp & Hd & Hx).
  unfold create_address, bind, execute, subscript.
  rewrite Hins, Hname. simpl.
  pose proof (scope_loop_poll_loop compute (Regional region) project
                operation_name fuel w1) as Hloop.
  simpl in Hloop. rewrite Hloop.
  rewrite (poll_loop_done compute _ _ n fuel w1 Hp Hx Hlt).
  destruct (reply_at W compute
              (RegionOperationsGet project region operation_name) n w1)
    as [result | detail] eqn:Hr; [| discriminate].
  simpl. simpl in Hget. rewrite Hget, Haddr. simpl.
  rewrite <- app_assoc. reflexivity.
Qed.

(** A run that returned went through exactly these steps. *)
Lemma create_address_inv (fuel : nat) (w w' : W) (v : value)
    (t : list event) :
  create_address W compute fuel project region address_name w
  = (Ret v, w', t) ->
  exists operation w1 operation_name n result address,
    compute
      (AddressesInsert project region
         (VDict [("name", VStr address_name)])) w = (Response operation, w1)
    /\ dict_lookup "name" operation = Some operation_name
    /\ (n < fuel)%nat
    /\ done_after W compute
         (RegionOperationsGet project region operation_name) n w1 = true
    /\ reply_at W compute
         (RegionOperationsGet project region operation_name) n w1
       = Response result
    /\ compute (AddressesGet project region address_name)
         (after_polls W compute
            (RegionOperationsGet project region operation_name) (S n) w1)
       = (Response address, w')
    /\ dict_lookup "address" address = Some v
    /\ t = ECall
      (AddressesInsert project region
         (VDict [("name", VStr address_name)])) (Response operation)
             :: (poll_trace W compute
                   (RegionOperationsGet project region operation_name) n w1
                 ++ [ECall
                       (RegionOperationsGet project region operation_name)
                       (Response result);
                     ECall
                       (AddressesGet project region address_name)
                       (Response address)])%list.
Proof.
  unfold create_address, bind, execute, subscript.
  destruct (compute (AddressesInsert project region
                       (VDict [("name", VStr address_name)])) w)
    as [[operation | detail] w1] eqn:Hins; [| discriminate].
  destruct (dict_lookup "name" operation) as [operation_name |] eqn:Hname;
    [| discriminate].
  simpl.
  pose proof (scope_loop_poll_loop compute (Regional region) project
                operation_name fuel w1) as Hloop.
  simpl in Hloop. rewrite Hloop.
  destruct (poll_loop W compute
              (RegionOperationsGet project region operation_name)
              false fuel w1) as [[o wl] tl] eqn:Hrun.
  destruct o as [[] | e |]; try discriminate.
  apply poll_loop_inv in Hrun as (n & Hlt & Hp & Hx & Ho & Hw & Ht);
    [| discriminate].
  destruct (reply_at W compute
              (RegionOperationsGet project region operation_name) n w1)
    as [result | detail] eqn:Hr; [| discriminate].
  subst wl tl.
  destruct (compute (AddressesGet project region address_name)
              (after_polls W compute
                 (RegionOperationsGet project region operation_name)
                 (S n) w1))
    as [[address | detail] w2] eqn:Hget; [| discriminate].
  destruct (dict_lookup "address" address) as [v' |] eqn:Haddr;
    [| discriminate].
  simpl. intro H. inversion H; subst.
  exists operation, w1, operation_name, n, result, address.
  unfold done_after. rewrite Hp, Hr. simpl in Hx |- *.
  destruct (eq_str (dict_get "status" result) "DONE"); [| discriminate].
  rewrite <- app_assoc.
  repeat split; try assumption; reflexivity.
Qed.

(** The address provisioner submits neither a firewall rule nor an
    instance, however it ends. *)
Lemma create_address_submits_nothing (fuel : nat) (w : W) :
  firewall_bodies
    (snd (create_address W compute fuel project region address_name w)) = []
  /\ instance_bodies
       (snd (create_address W compute fuel project region address_name w))
     = [].
Proof.
  unfold create_address, bind, execute, subscript.
  destruct (compute (AddressesInsert project region
                       (VDict [("name", VStr address_name)])) w)
    as [[operation | detail] w1]; [| split; reflexivity].
  destruct (dict_lookup "name" operation) as [operation_name |];
    [| split; reflexivity].
  simpl.
  pose proof (scope_loop_poll_events compute (Regional region) project
                operation_name fuel w1) as Hev.
  simpl in Hev.
  destruct (create_address_loop W compute fuel project region
              operation_name w1) as [[o wl] tl].
  simpl in Hev. apply poll_events_submit_nothing in Hev as (Hf & Hi & _).
  destruct o as [[] | e |]; simpl; try (split; assumption).
  destruct (compute (AddressesGet project region address_name) wl)
    as [[address | detail] w2]; simpl.
  - destruct (dict_lookup "address" address); simpl;
      rewrite firewall_bodies_app, instance_bodies_app, Hf, Hi;
      split; reflexivity.
  - rewrite firewall_bodies_app, instance_bodies_app, Hf, Hi.
    split; reflexivity.
Qed.

(** C6.  The value returned by the address provisioner is the [address]
    field of the Address resource fetched by name, and that fetch comes
    after the poll that saw the allocation operation [DONE]: it is the
    last step of the run and the only fetch in it.  Given enough fuel
    and such answers the provisioner does return, and a run that
    returned can only have gone this way. *)
Theorem create_address_returns_fetched_value (fuel : nat) (w : W) :
  (forall w1 w2 operation address operation_name v n,
     compute
       (AddressesInsert project region
          (VDict [("name", VStr address_name)])) w = (Response operation, w1) ->
     dict_lookup "name" operation = Some operation_name ->
     done_after W compute
       (RegionOperationsGet project region operation_name) n w1 = true ->
     (n < fuel)%nat ->
     compute (AddressesGet project region address_name)
       (after_polls W compute
          (RegionOperationsGet project region operation_name) (S n) w1)
     = (Response address, w2) ->
     dict_lookup "address" address = Some v ->
     create_address W compute fuel project region address_name w
     = (Ret v, w2,
        ECall
          (AddressesInsert project region
             (VDict [("name", VStr address_name)])) (Response operation)
          :: (poll_trace W compute
                (RegionOperationsGet project region operation_name) n w1
              ++ [ECall (RegionOperationsGet project region operation_name)
                    (reply_at W compute
                       (RegionOperationsGet project region operation_name)
                       n w1);
                  ECall
                    (AddressesGet project region address_name)
                    (Response address)])%list))
  /\ (forall v w' t,
        create_address W compute fuel project region address_name w
        = (Ret v, w', t) ->
        exists operation_name result address t0,
          t = (t0 ++ [ECall
                        (RegionOperationsGet project region operation_name)
                        (Response result);
                      ECall
                        (AddressesGet project region address_name)
                        (Response address)])%list
          /\ eq_str (dict_get "status" result) "DONE" = true
          /\ dict_lookup "address" address = Some v
          /\ address_fetches t0 = []).
Proof.
  split.
  - intros. eapply create_address_run; eassumption.
  - intros v w' t Hrun.
    apply create_address_inv in Hrun
      as (operation & w1 & operation_name & n & result & address
          & Hins & Hname & Hlt & Hd & Hr & Hget & Haddr & Ht).
    exists operation_name, result, address,
      (ECall
        (AddressesInsert project region
           (VDict [("name", VStr address_name)])) (Response operation)
         :: poll_trace W compute
              (RegionOperationsGet project region operation_name) n w1).
    apply done_after_split in Hd as (_ & Hd & _).
    rewrite Hr in Hd. simpl in Hd.
    repeat split; try assumption.
    pose proof (poll_trace_poll_events compute (Regional region) project
                  operation_name n w1) as Hev.
    apply poll_events_submit_nothing in Hev as (_ & _ & Hf).
    simpl. exact Hf.
Qed.

End Address.

(** ** The firewall and the instance provisioner *)

Section Provisioners.

Context {W : Type} (compute : request -> W -> reply * W).

Lemma wait_for_global_operation_submits_nothing
    (fuel : nat) (project : string) (operation : value) (w : W) :
  firewall_bodies
    (snd (wait_for_global_operation W compute fuel project operation w)) = []
  /\ instance_bodies
       (snd (wait_for_global_operation W compute fuel project operation w))
     = [].
Proof.
  unfold wait_for_global_operation, bind, print.
  pose proof (scope_loop_poll_events compute Global project operation fuel w)
    as Hev.
  simpl in Hev.
  destruct (wait_for_global_operation_loop W compute fuel project operation w)
    as [[o w'] t].
  simpl in Hev. apply poll_events_submit_nothing in Hev as (Hf & Hi & _).
  simpl. split; assumption.
Qed.

Lemma wait_for_operation_submits_nothing
    (fuel : nat) (project zone : string) (operation : value) (w : W) :
  firewall_bodies
    (snd (wait_for_operation W compute fuel project zone operation w)) = []
  /\ instance_bodies
       (snd (wait_for_operation W compute fuel project zone operation w))
     = [].
Proof.
  unfold wait_for_operation, bind, print.
  pose proof (scope_loop_poll_events compute (Zonal zone) project operation
                fuel w) as Hev.
  simpl in Hev.
  destruct (wait_for_operation_loop W compute fuel project zone operation w)
    as [[o w'] t].
  simpl in Hev. apply poll_events_submit_nothing in Hev as (Hf & Hi & _).
  simpl. split; assumption.
Qed.

(** C8.  Whatever the name, the project, the fuel and the answers of the
    remote side, the firewall provisioner submits exactly one rule spec,
    and that spec has a single allow entry for protocol tcp with ports 22
    and 80, direction INGRESS and the one source range 0.0.0.0/0; only the
    [name] entry depends on the call. *)
Theorem firewall_rule_spec_is_static
    (fuel : nat) (project firewall_name : string) (w : W) :
  firewall_bodies
    (snd (create_firewall_rule W compute fuel project firewall_name w))
  = [VDict [("name", VStr firewall_name);
            ("allowed",
             VList [VDict [("IPProtocol", VStr "tcp");
                           ("ports", VList [VStr "22"; VStr "80"])]]);
            ("direction", VStr "INGRESS");
            ("sourceRanges", VList [VStr "0.0.0.0/0"])]].
Proof.
  unfold create_firewall_rule, bind, print, execute, subscript, firewall_body.
  destruct (compute _ w) as [[operation | detail] w1]; [| reflexivity].
  destruct (dict_lookup "name" operation) as [operation_name |];
    [| reflexivity].
  simpl.
  destruct (wait_for_global_operation_submits_nothing fuel project
              operation_name w1) as [Hf _].
  destruct (wait_for_global_operation W compute fuel project operation_name w1)
    as [[o w2] t2].
  simpl in Hf.
  destruct o as [[] | e |]; simpl;
    rewrite ?firewall_bodies_app, Hf; reflexivity.
Qed.

Lemma create_firewall_rule_submits_no_instance
    (fuel : nat) (project firewall_name : string) (w : W) :
  instance_bodies
    (snd (create_firewall_rule W compute fuel project firewall_name w)) = [].
Proof.
  unfold create_firewall_rule, bind, print, execute, subscript.
  destruct (compute _ w) as [[operation | detail] w1]; [| reflexivity].
  destruct (dict_lookup "name" operation) as [operation_name |];
    [| reflexivity].
  simpl.
  destruct (wait_for_global_operation_submits_nothing fuel project
              operation_name w1) as [_ Hi].
  destruct (wait_for_global_operation W compute fuel project operation_name w1)
    as [[o w2] t2].
  simpl in Hi.
  destruct o as [[] | e |]; simpl;
    rewrite ?instance_bodies_app, Hi; reflexivity.
Qed.

(** The instance provisioner prints, submits its one spec, and whatever
    follows submits nothing more. *)
Lemma create_instance_trace
    (fuel : nat) (project zone instance_name : string) (static_ip : value)
    (machine_type source_image : string) (disk_size_gb : Z) (w : W) :
  exists rp t',
    snd (create_instance W compute fuel project zone instance_name static_ip
           machine_type source_image disk_size_gb w)
    = EPrint [VStr ("Creating VM instance '" ++ instance_name
                    ++ "' in zone '" ++ zone ++ "'")]
        :: ECall (InstancesInsert project zone
                    (instance_config zone instance_name static_ip
                       machine_type source_image disk_size_gb)) rp
        :: t'
    /\ instance_bodies t' = [].
Proof.
  unfold create_instance, bind, print, execute, subscript.
  destruct (compute _ w) as [[operation | detail] w1];
    [| exists (Failure detail), []; split; reflexivity].
  destruct (dict_lookup "name" operation) as [operation_name |];
    [| exists (Response operation), []; split; reflexivity].
  simpl.
  destruct (wait_for_operation_submits_nothing fuel project zone
              operation_name w1) as [_ Hi].
  destruct (wait_for_operation W compute fuel project zone operation_name w1)
    as [[o w2] t2].
  simpl in Hi.
  destruct o as [[] | e |]; simpl; eexists _, _; (split; [reflexivity |]);
    rewrite ?instance_bodies_app, Hi; reflexivity.
Qed.

Lemma nat_ip_instance_config
    (zone instance_name : string) (static_ip : value)
    (machine_type source_image : string) (disk_size_gb : Z) :
  nat_ip (instance_config zone instance_name static_ip machine_type
            source_image disk_size_gb)
  = Some static_ip.
Proof. reflexivity. Qed.

End Provisioners.

(** ** The orchestrator *)

Section Orchestrator.

Context {W : Type}
  (discovery_build : string -> string -> W -> built W * W).

(** [main] builds the client and then runs the three provisioners one
    after the other, each started in the state the previous step left, and
    stopped by the first step that does not return. *)
Lemma main_unfold (fuel : nat) (w : W) :
  main W discovery_build fuel w
  = match discovery_build "compute" "v1" w with
    | (BuildFailure detail, w0) => (Raise (BuildError detail), w0, [])
    | (Built compute, w0) =>
        match create_address W compute fuel project region address_name
                w0 with
        | (Ret static_ip, w1, t1) =>
            match create_firewall_rule W compute fuel project firewall_name
                    w1 with
            | (Ret _, w2, t2) =>
                match create_instance W compute fuel project zone
                        instance_name static_ip machine_type source_image
                        disk_size_gb w2 with
                | (o, w3, t3) =>
                    (o, w3,
                     (t1 ++ EPrint [VStr "reserved static IP: "; static_ip]
                         :: t2 ++ t3)%list)
                end
            | (Raise e, w2, t2) =>
                (Raise e, w2,
                 (t1 ++ EPrint [VStr "reserved static IP: "; static_ip]
                     :: t2)%list)
            | (OutOfFuel, w2, t2) =>
                (OutOfFuel, w2,
                 (t1 ++ EPrint [VStr "reserved static IP: "; static_ip]
                     :: t2)%list)
            end
        | (Raise e, w1, t1) => (Raise e, w1, t1)
        | (OutOfFuel, w1, t1) => (OutOfFuel, w1, t1)
        end
    end.
Proof.
  unfold main, bind at 1, build.
  destruct (discovery_build "compute" "v1" w) as [[compute | detail] w0];
    [| reflexivity].
  unfold bind at 1.
  destruct (create_address W compute fuel project region address_name w0)
    as [[[static_ip | e |] w1] t1]; try reflexivity.
  unfold bind at 1, print. unfold bind at 1.
  destruct (create_firewall_rule W compute fuel project firewall_name w1)
    as [[[[] | e |] w2] t2]; try reflexivity.
  destruct (create_instance W compute fuel project zone instance_name
              static_ip machine_type source_image disk_size_gb w2)
    as [[o w3] t3].
  reflexivity.
Qed.

(** C2.  The orchestrator runs address, firewall, instance in this order
    and stops at the first failure.  With the client built: if the address
    provisioner raises, [main] ends right there with the same exception,
    state and trace, and nothing was submitted for a firewall rule or an
    instance.  If the firewall provisioner raises, [main] ends with that
    exception and the trace holds no instance-create submission.  When
    both return, the instance provisioner runs last and its outcome is the
    outcome of [main]. *)
Theorem main_stops_at_first_failure
    (fuel : nat) (w w0 : W) (compute : request -> W -> reply * W) :
  discovery_build "compute" "v1" w = (Built compute, w0) ->
  (forall e w1 t1,
     create_address W compute fuel project region address_name w0
     = (Raise e, w1, t1) ->
     main W discovery_build fuel w = (Raise e, w1, t1)
     /\ firewall_bodies t1 = []
     /\ instance_bodies t1 = [])
  /\ (forall static_ip w1 t1 e w2 t2,
        create_address W compute fuel project region address_name w0
        = (Ret static_ip, w1, t1) ->
        create_firewall_rule W compute fuel project firewall_name w1
        = (Raise e, w2, t2) ->
        main W discovery_build fuel w
        = (Raise e, w2,
           (t1 ++ EPrint [VStr "reserved static IP: "; static_ip] :: t2)%list)
        /\ List.length
             (instance_bodies (snd (main W discovery_build fuel w)))
           = O)
  /\ (forall static_ip w1 t1 w2 t2 o w3 t3,
        create_address W compute fuel project region address_name w0
        = (Ret static_ip, w1, t1) ->
        create_firewall_rule W compute fuel project firewall_name w1
        = (Ret tt, w2, t2) ->
        create_instance W compute fuel project zone instance_name static_ip
          machine_type source_image disk_size_gb w2
        = (o, w3, t3) ->
        main W discovery_build fuel w
        = (o, w3,
           (t1 ++ EPrint [VStr "reserved static IP: "; static_ip]
               :: t2 ++ t3)%list)).
Proof.
  intro Hb. split; [| split].
  - intros e w1 t1 Ha.
    pose proof (create_address_submits_nothing compute project region
                  address_name fuel w0) as [Hf Hi].
    rewrite main_unfold, Hb, Ha. rewrite Ha in Hf, Hi.
    repeat split; assumption.
  - intros static_ip w1 t1 e w2 t2 Ha Hfw.
    pose proof (create_address_submits_nothing compute project region
                  address_name fuel w0) as [_ Hi].
    pose proof (create_firewall_rule_submits_no_instance compute fuel project
                  firewall_name w1) as Hi2.
    rewrite main_unfold, Hb, Ha, Hfw. rewrite Ha in Hi. rewrite Hfw in Hi2.
    simpl in *. split; [reflexivity |].
    rewrite instance_bodies_app, Hi. simpl. rewrite Hi2. reflexivity.
  - intros static_ip w1 t1 w2 t2 o w3 t3 Ha Hfw Hin.
    rewrite main_unfold, Hb, Ha, Hfw, Hin. reflexivity.
Qed.

(** C3.  Every instance spec that [main] submits carries, at
    [networkInterfaces[0].accessConfigs[0].natIP], the very value the
    address provisioner returned in the same run, on the client that
    [main] had built. *)
Theorem instance_nat_ip_is_allocated_address
    (fuel : nat) (w : W) (body : value) :
  In body (instance_bodies (snd (main W discovery_build fuel w))) ->
  exists compute w0 static_ip w1 t1,
    discovery_build "compute" "v1" w = (Built compute, w0)
    /\ create_address W compute fuel project region address_name w0
       = (Ret static_ip, w1, t1)
    /\ nat_ip body = Some static_ip.
Proof.
  rewrite main_unfold.
  destruct (discovery_build "compute" "v1" w) as [[compute | detail] w0];
    [| intros []].
  pose proof (create_address_submits_nothing compute project region
                address_name fuel w0) as [_ Hi].
  destruct (create_address W compute fuel project region address_name w0)
    as [[[static_ip | e |] w1] t1] eqn:Ha; simpl in Hi |- *;
    try (rewrite Hi; intros []).
  pose proof (create_firewall_rule_submits_no_instance compute fuel project
                firewall_name w1) as Hi2.
  destruct (create_firewall_rule W compute fuel project firewall_name w1)
    as [[[[] | e |] w2] t2]; simpl in Hi2 |- *;
    try (rewrite instance_bodies_app, Hi; simpl; rewrite Hi2; intros []).
  destruct (create_instance_trace compute fuel project zone instance_name
              static_ip machine_type source_image disk_size_gb w2)
    as (rp & t' & Ht & Hi3).
  destruct (create_instance W compute fuel project zone instance_name
              static_ip machine_type source_image disk_size_gb w2)
    as [[o w3] t3].
  simpl in Ht |- *. subst t3.
  rewrite instance_bodies_app, Hi. simpl.
  rewrite instance_bodies_app, Hi2. simpl. rewrite Hi3.
  intros [Hb | []]. subst body.
  exists compute, w0, static_ip, w1, t1.
  split; [reflexivity | split; [exact Ha | reflexivity]].
Qed.

(** X14.  In every run of [main] that returns, the trace starts with the
    address allocation request, goes on with the polls of the very
    operation that request was answered with, up to the poll that saw it
    [DONE], then fetches the address, and only later makes its one
    instance-create submission, whose body carries the fetched address
    value.  (Whether that [DONE] poll carries an [error] key is not looked
    at.) *)
Theorem allocation_polled_done_before_instance_submission
    (fuel : nat) (w w' : W) (t : list event) :
  main W discovery_build fuel w = (Ret tt, w', t) ->
  exists compute w0 operation wa operation_name n result address static_ip
         t2 body rp t3,
    discovery_build "compute" "v1" w = (Built compute, w0)
    /\ compute (AddressesInsert project region
                  (VDict [("name", VStr address_name)])) w0
       = (Response operation, wa)
    /\ dict_lookup "name" operation = Some operation_name
    /\ t = (ECall (AddressesInsert project region
                     (VDict [("name", VStr address_name)]))
              (Response operation)
            :: poll_trace W compute
                 (RegionOperationsGet project region operation_name) n wa
            ++ ECall (RegionOperationsGet project region operation_name)
                 (Response result)
            :: ECall (AddressesGet project region address_name)
                 (Response address)
            :: t2
            ++ ECall (InstancesInsert project zone body) rp :: t3)%list
    /\ eq_str (dict_get "status" result) "DONE" = true
    /\ dict_lookup "address" address = Some static_ip
    /\ nat_ip body = Some static_ip
    /\ instance_bodies t2 = []
    /\ instance_bodies t3 = [].
Proof.
  rewrite main_unfold.
  destruct (discovery_build "compute" "v1" w) as [[compute | detail] w0];
    [| discriminate].
  destruct (create_address W compute fuel project region address_name w0)
    as [[[static_ip | e |] w1] t1] eqn:Ha; try discriminate.
  pose proof (create_firewall_rule_submits_no_instance compute fuel project
                firewall_name w1) as Hi2.
  destruct (create_firewall_rule W compute fuel project firewall_name w1)
    as [[[[] | e |] w2] t2]; try discriminate.
  destruct (create_instance_trace compute fuel project zone instance_name
              static_ip machine_type source_image disk_size_gb w2)
    as (rp & t' & Ht & Hi3).
  destruct (create_instance W compute fuel project zone instance_name
              static_ip machine_type source_image disk_size_gb w2)
    as [[o w3] t3].
  simpl in Ht, Hi2. subst t3. intro H. inversion H; subst.
  apply create_address_inv in Ha
    as (operation & wa & operation_name & n & result & address
        & Hins & Hname & Hlt & Hd & Hr & Hget & Haddr & Ht1).
  apply done_after_split in Hd as (_ & Hd & _).
  rewrite Hr in Hd. simpl in Hd.
  exists compute, w0, operation, wa, operation_name, n, result, address,
    static_ip,
    (EPrint [VStr "reserved static IP: "; static_ip]
       :: (t2 ++ [EPrint [VStr ("Creating VM instance '" ++ instance_name
                                ++ "' in zone '" ++ zone ++ "'")]])%list),
    (instance_config zone instance_name static_ip machine_type source_image
       disk_size_gb),
    rp, t'.
  repeat split; try assumption.
  - subst t1. simpl. repeat (rewrite <- app_assoc; simpl). reflexivity.
  - simpl. rewrite instance_bodies_app, Hi2. reflexivity.
Qed.

End Orchestrator.

(** ** The statements at work on scripted clients *)

Lemma poll_loop_leaves_only_on_first_done_witness :
  scope_loop _ scripted (Zonal zone) 5 project (VStr "operation-1")
    [running; done]
  = (Ret tt, [],
     [ECall (ZoneOperationsGet project zone (VStr "operation-1")) running;
      ESleep 1;
      ECall (ZoneOperationsGet project zone (VStr "operation-1")) done])
  /\ scope_loop _ scripted (Regional region) 2 project (VStr "operation-1")
       [running; running; done]
     = (OutOfFuel, [done],
        [ECall (RegionOperationsGet project region (VStr "operation-1"))
           running;
         ESleep 1;
         ECall (RegionOperationsGet project region (VStr "operation-1"))
           running;
         ESleep 1])
  /\ fst (fst (scope_loop _ stuck Global 7 project (VStr "operation-1") tt))
     = OutOfFuel.
Proof.
  split; [| split].
  - apply (proj1 (poll_loop_leaves_only_on_first_done scripted (Zonal zone)
                    project (VStr "operation-1") [running; done] 1%nat));
      [reflexivity | lia].
  - apply (proj1 (proj2 (poll_loop_leaves_only_on_first_done scripted
                           (Regional region) project (VStr "operation-1")
                           [running; running; done] 2%nat)));
      [reflexivity | lia].
  - apply (proj2 (proj2 (poll_loop_leaves_only_on_first_done stuck Global
                           project (VStr "operation-1") tt 0%nat))).
    intro k. induction k as [| k IH]; [reflexivity | exact IH].
Defined.

(** The scenario of the spec: [RUNNING] three times, then [DONE] without
    error, makes four status queries. *)
Lemma wait_for_operation_query_count_witness :
  fst (fst (wait_for_operation _ scripted 10 project zone (VStr "operation-1")
              [running; running; running; done]))
  = Ret tt
  /\ List.length
       (filter is_status_query
          (snd (wait_for_operation _ scripted 10 project zone
                  (VStr "operation-1") [running; running; running; done])))
     = 4%nat
  /\ List.length
       (filter is_sleep
          (snd (wait_for_operation _ scripted 10 project zone
                  (VStr "operation-1") [running; running; running; done])))
     = 3%nat.
Proof.
  apply (wait_for_operation_query_count scripted project zone
           (VStr "operation-1") [running; running; running; done] 3 10);
    [reflexivity | lia].
Defined.

Lemma wait_returns_normally_without_error_witness :
  fst (fst (wait_for_operation _ scripted 4 project zone (VStr "operation-1")
              [running; done]))
  = Ret tt
  /\ fst (fst (wait_for_global_operation _ scripted 4 project
                 (VStr "operation-1") [running; done]))
     = Ret tt.
Proof.
  split.
  - rewrite (proj1 (wait_returns_normally_without_error scripted project zone
                      (VStr "operation-1") [running; done] 1 4
                      [("status", VStr "DONE")]));
      [reflexivity | reflexivity | reflexivity | reflexivity | lia].
  - rewrite (proj2 (wait_returns_normally_without_error scripted project zone
                      (VStr "operation-1") [running; done] 1 4
                      [("status", VStr "DONE")]));
      [reflexivity | reflexivity | reflexivity | reflexivity | lia].
Defined.

Lemma error_on_pending_poll_is_ignored_witness :
  scope_loop _ scripted (Zonal zone) 3 project (VStr "operation-1")
    [running_with_error; done]
  = (Ret tt, [],
     [ECall (ZoneOperationsGet project zone (VStr "operation-1"))
        running_with_error;
      ESleep 1;
      ECall (ZoneOperationsGet project zone (VStr "operation-1")) done])
  /\ exists n result,
       (n < 3)%nat
       /\ done_after _ scripted
            (poll_request Global project (VStr "operation-1")) n
            [running_with_error; done_with_error] = true
       /\ reply_at _ scripted
            (poll_request Global project (VStr "operation-1")) n
            [running_with_error; done_with_error] = Response result
       /\ dict_lookup "error" result = Some quota_exceeded
       /\ [ECall (GlobalOperationsGet project (VStr "operation-1"))
             running_with_error;
           ESleep 1;
           ECall (GlobalOperationsGet project (VStr "operation-1"))
             done_with_error]
          = (poll_trace _ scripted
               (poll_request Global project (VStr "operation-1")) n
               [running_with_error; done_with_error]
             ++ [ECall (poll_request Global project (VStr "operation-1"))
                   (Response result)])%list.
Proof.
  split.
  - rewrite (proj1 (error_on_pending_poll_is_ignored scripted (Zonal zone)
                      project (VStr "operation-1")
                      [running_with_error; done] 2)
               [("status", VStr "RUNNING"); ("error", quota_exceeded)]
               quota_exceeded);
      reflexivity.
  - apply (proj2 (error_on_pending_poll_is_ignored scripted Global
                    project (VStr "operation-1")
                    [running_with_error; done_with_error] 3)
             quota_exceeded []).
    reflexivity.
Defined.

Lemma create_address_returns_fetched_value_witness :
  create_address _ scripted 5 project region address_name
    [started "operation-address"; running; done; address_resource "34.1.2.3"]
  = (Ret (VStr "34.1.2.3"), [],
     [ECall (AddressesInsert project region
               (VDict [("name", VStr address_name)]))
        (started "operation-address");
      ECall (RegionOperationsGet project region (VStr "operation-address"))
        running;
      ESleep 1;
      ECall (RegionOperationsGet project region (VStr "operation-address"))
        done;
      ECall (AddressesGet project region address_name)
        (address_resource "34.1.2.3")])
  /\ exists operation_name result address t0,
       [ECall (AddressesInsert project region
                 (VDict [("name", VStr address_name)]))
          (started "operation-address");
        ECall (RegionOperationsGet project region (VStr "operation-address"))
          running;
        ESleep 1;
        ECall (RegionOperationsGet project region (VStr "operation-address"))
          done;
        ECall (AddressesGet project region address_name)
          (address_resource "34.1.2.3")]
       = (t0 ++ [ECall (RegionOperationsGet project region operation_name)
                   (Response result);
                 ECall (AddressesGet project region address_name)
                   (Response address)])%list
       /\ eq_str (dict_get "status" result) "DONE" = true
       /\ dict_lookup "address" address = Some (VStr "34.1.2.3")
       /\ address_fetches t0 = [].
Proof.
  split.
  - apply (proj1 (create_address_returns_fetched_value scripted project region
                    address_name 5
                    [started "operation-address"; running; done;
                     address_resource "34.1.2.3"])
             [running; done; address_resource "34.1.2.3"] []
             [("name", VStr "operation-address"); ("status", VStr "RUNNING")]
             [("name", VStr "vm-static-ip"); ("address", VStr "34.1.2.3")]
             (VStr "operation-address") (VStr "34.1.2.3") 1%nat);
      try reflexivity; lia.
  - apply (proj2 (create_address_returns_fetched_value scripted project region
                    address_name 5
                    [started "operation-address"; running; done;
                     address_resource "34.1.2.3"])
             (VStr "34.1.2.3") []).
    reflexivity.
Defined.

Lemma main_stops_at_first_failure_witness :
  (main _ (built_with scripted) 5 [Failure (VStr "name already in use")]
   = (Raise (HttpError (VStr "name already in use")), [],
      [ECall (AddressesInsert project region
                (VDict [("name", VStr address_name)]))
         (Failure (VStr "name already in use"))]))
  /\ (fst (fst (main _ (built_with scripted) 5 firewall_operation_fails))
      = Raise (Exception quota_exceeded)
      /\ List.length
           (instance_bodies
              (snd (main _ (built_with scripted) 5 firewall_operation_fails)))
         = 0%nat)
  /\ fst (fst (main _ (built_with scripted) 5 all_done_at_once)) = Ret tt.
Proof.
  split; [| split].
  - apply (proj1 (main_stops_at_first_failure (built_with scripted) 5
                    [Failure (VStr "name already in use")]
                    [Failure (VStr "name already in use")] scripted eq_refl)
             (HttpError (VStr "name already in use")) [] _ eq_refl).
  - destruct (proj1 (proj2 (main_stops_at_first_failure (built_with scripted)
                              5 firewall_operation_fails
                              firewall_operation_fails scripted eq_refl))
                (VStr "34.1.2.3")
                [started "operation-firewall"; running; done_with_error]
                _ (Exception quota_exceeded) [] _ eq_refl eq_refl)
      as [Hrun Hcount].
    split; [rewrite Hrun; reflexivity | exact Hcount].
  - rewrite (proj2 (proj2 (main_stops_at_first_failure (built_with scripted)
                             5 all_done_at_once all_done_at_once scripted
                             eq_refl))
               (VStr "34.1.2.3")
               [started "operation-firewall"; done;
                started "operation-instance"; done]
               _
               [started "operation-instance"; done]
               _ (Ret tt) [] _ eq_refl eq_refl eq_refl).
    reflexivity.
Defined.

(** The scenario of the spec: everything [DONE] at once and the address
    fetch answering 34.1.2.3. *)
Lemma instance_nat_ip_is_allocated_address_witness :
  exists compute w0 static_ip w1 t1,
    built_with scripted "compute" "v1" all_done_at_once = (Built compute, w0)
    /\ create_address _ compute 5 project region address_name w0
       = (Ret static_ip, w1, t1)
    /\ nat_ip (instance_config zone instance_name (VStr "34.1.2.3")
                 machine_type source_image disk_size_gb)
       = Some static_ip.
Proof.
  apply (instance_nat_ip_is_allocated_address (built_with scripted) 5
           all_done_at_once).
  left. reflexivity.
Defined.

Lemma allocation_polled_done_before_instance_submission_witness :
  exists compute w0 operation wa operation_name n result address static_ip
         t2 body rp t3,
    built_with scripted "compute" "v1" all_done_at_once = (Built compute, w0)
    /\ compute (AddressesInsert project region
                  (VDict [("name", VStr address_name)])) w0
       = (Response operation, wa)
    /\ dict_lookup "name" operation = Some operation_name
    /\ snd (main _ (built_with scripted) 5 all_done_at_once)
       = (ECall (AddressesInsert project region
                   (VDict [("name", VStr address_name)]))
            (Response operation)
          :: poll_trace _ compute
               (RegionOperationsGet project region operation_name) n wa
          ++ ECall (RegionOperationsGet project region operation_name)
               (Response result)
          :: ECall (AddressesGet project region address_name)
               (Response address)
          :: t2
          ++ ECall (InstancesInsert project zone body) rp :: t3)%list
    /\ eq_str (dict_get "status" result) "DONE" = true
    /\ dict_lookup "address" address = Some static_ip
    /\ nat_ip body = Some static_ip
    /\ instance_bodies t2 = []
    /\ instance_bodies t3 = [].
Proof.
  apply (allocation_polled_done_before_instance_submission
           (built_with scripted) 5 all_done_at_once []).
  reflexivity.
Defined.

(** C1 (the zonal and the global wait do this; the loop in the address
    provisioner does not).  The claim: on every wait path an operation that
    is [DONE] with an error payload makes the call raise with that payload.
    Here the address allocation is [DONE] with the payload "quota exceeded":
    [create_address] returns an address all the same, [main] goes on to
    submit the firewall rule and the instance and returns, while the zonal
    and the global wait raise that payload on the same answer. *)
Theorem create_address_ignores_operation_error :
  create_address _ scripted 5 project region address_name
    [started "operation-address"; done_with_error; address_resource "34.1.2.3"]
  = (Ret (VStr "34.1.2.3"), [],
     [ECall (AddressesInsert project region
               (VDict [("name", VStr address_name)]))
        (started "operation-address");
      ECall (RegionOperationsGet project region (VStr "operation-address"))
        done_with_error;
      ECall (AddressesGet project region address_name)
        (address_resource "34.1.2.3")])
  /\ fst (fst (main _ (built_with scripted) 5 address_operation_fails))
     = Ret tt
  /\ List.length
       (instance_bodies
          (snd (main _ (built_with scripted) 5 address_operation_fails)))
     = 1%nat
  /\ fst (fst (wait_for_operation _ scripted 5 project zone
                 (VStr "operation-address") [done_with_error]))
     = Raise (Exception quota_exceeded)
  /\ fst (fst (wait_for_global_operation _ scripted 5 project
                 (VStr "operation-address") [done_with_error]))
     = Raise (Exception quota_exceeded).
Proof. repeat split. Qed.

(** C5 (the code departs from it, by the same missing check as in C1).
    The claim: in every successful run the address allocation has reached
    terminal success before the instance-create request is submitted.
    Here the one answer to the regional status query is [DONE] with the
    error payload "quota exceeded", so the allocation never succeeded; yet
    [main] returns normally and has submitted the instance, with
    34.1.2.3 as its [natIP]. *)
Theorem instance_submitted_after_failed_allocation :
  fst (fst (main _ (built_with scripted) 5 address_operation_fails)) = Ret tt
  /\ region_polls
       (snd (main _ (built_with scripted) 5 address_operation_fails))
     = [Response [("status", VStr "DONE");
                  ("error", VDict [("message", VStr "quota exceeded")])]]
  /\ instance_bodies
       (snd (main _ (built_with scripted) 5 address_operation_fails))
     = [instance_config zone instance_name (VStr "34.1.2.3") machine_type
          source_image disk_size_gb]
  /\ nat_ip (instance_config zone instance_name (VStr "34.1.2.3")
               machine_type source_image disk_size_gb)
     = Some (VStr "34.1.2.3").
Proof. repeat split. Qed.

(** ** More on the poll loops *)

Lemma eq_str_true (v : value) (s : string) :
  eq_str v s = true <-> v = VStr s.
Proof.
  destruct v; simpl; try (split; [discriminate | intro H; discriminate]).
  rewrite String.eqb_eq. split; [intros -> | intro H; inversion H];
    reflexivity.
Qed.

Section MoreLoops.

Context {W : Type} (compute : request -> W -> reply * W).

(** X1.  The status test is [result.get('status') == 'DONE']: a poll
    result with no [status] key, or with any status other than the string
    DONE, is not an error; the loop sleeps one second and polls again. *)
Theorem other_status_keeps_polling
    (s : scope) (project : string) (operation : value) (w : W) (fuel : nat)
    (result : dict) :
  fst (compute (poll_request s project operation) w) = Response result ->
  dict_lookup "status" result <> Some (VStr "DONE") ->
  scope_loop W compute s (S fuel) project operation w
  = match scope_loop W compute s fuel project operation
            (snd (compute (poll_request s project operation) w)) with
    | (o, w', t) =>
        (o, w',
         ECall (poll_request s project operation) (Response result)
           :: ESleep 1 :: t)
    end.
Proof.
  intros Hr Hs. rewrite !scope_loop_poll_loop.
  rewrite poll_loop_step_pending; [rewrite Hr; reflexivity |].
  rewrite Hr. simpl.
  destruct (eq_str (dict_get "status" result) "DONE") eqn:He;
    [| reflexivity].
  apply eq_str_true in He. unfold dict_get in He.
  destruct (dict_lookup "status" result); congruence.
Qed.

(** X2.  A poll whose [execute()] raises ends the wait at once: after [n]
    non-terminal polls the failure of poll [n + 1] reaches the caller as
    it came, and no further query is made. *)
Theorem poll_failure_ends_the_wait
    (s : scope) (project : string) (operation : value) (w : W) (n fuel : nat)
    (detail : value) :
  pending_for W compute (poll_request s project operation) n w = true ->
  reply_at W compute (poll_request s project operation) n w = Failure detail ->
  (n < fuel)%nat ->
  scope_loop W compute s fuel project operation w
  = (Raise (HttpError detail),
     after_polls W compute (poll_request s project operation) (S n) w,
     (poll_trace W compute (poll_request s project operation) n w
        ++ [ECall (poll_request s project operation) (Failure detail)])%list).
Proof.
  intros Hp Hr Hlt. rewrite scope_loop_poll_loop.
  rewrite (poll_loop_done compute _ _ n fuel w Hp); [| | assumption].
  - rewrite Hr. reflexivity.
  - rewrite Hr. reflexivity.
Qed.

(** X3.  Whatever the answers and however it ends, a loop does nothing but
    query the one operation it was given, in its own scope, and sleep one
    second at a time. *)
Theorem loop_only_polls_its_operation
    (s : scope) (project : string) (operation : value) (fuel : nat) (w : W)
    (e : event) :
  In e (snd (scope_loop W compute s fuel project operation w)) ->
  e = ESleep 1
  \/ exists rp, e = ECall (poll_request s project operation) rp.
Proof.
  rewrite scope_loop_poll_loop. revert w.
  induction fuel as [| fuel IH]; intros w Hin; [destruct Hin |].
  destruct (status_pending
              (fst (compute (poll_request s project operation) w))) eqn:Hp.
  - rewrite (poll_loop_step_pending compute _ _ fuel w Hp) in Hin.
    specialize (IH (snd (compute (poll_request s project operation) w))).
    destruct (poll_loop W compute (poll_request s project operation)
                (checks_error s) fuel
                (snd (compute (poll_request s project operation) w)))
      as [[o w'] t].
    simpl in Hin, IH. destruct Hin as [He | [He | Hin]].
    + right. eexists. symmetry. exact He.
    + left. symmetry. exact He.
    + apply IH. exact Hin.
  - rewrite (poll_loop_step_exit compute _ _ fuel w Hp) in Hin.
    simpl in Hin. destruct Hin as [He | []].
    right. eexists. symmetry. exact He.
Qed.

(** X4.  The zonal and the global wait: when the first [DONE] result
    carries an [error] key, the call raises [Exception] with the value
    under that key, unchanged, right after that poll. *)
Theorem wait_raises_operation_error
    (project zone : string) (operation : value) (w : W) (n fuel : nat)
    (result : dict) (payload : value) :
  (done_after W compute (ZoneOperationsGet project zone operation) n w = true ->
   reply_at W compute (ZoneOperationsGet project zone operation) n w
   = Response result ->
   dict_lookup "error" result = Some payload ->
   (n < fuel)%nat ->
   wait_for_operation W compute fuel project zone operation w
   = (Raise (Exception payload),
      after_polls W compute (ZoneOperationsGet project zone operation)
        (S n) w,
      EPrint [VStr "Waiting for operation to finish"]
        :: (poll_trace W compute (ZoneOperationsGet project zone operation)
              n w
            ++ [ECall (ZoneOperationsGet project zone operation)
                  (Response result)])%list))
  /\ (done_after W compute (GlobalOperationsGet project operation) n w = true ->
      reply_at W compute (GlobalOperationsGet project operation) n w
      = Response result ->
      dict_lookup "error" result = Some payload ->
      (n < fuel)%nat ->
      wait_for_global_operation W compute fuel project operation w
      = (Raise (Exception payload),
         after_polls W compute (GlobalOperationsGet project operation)
           (S n) w,
         EPrint [VStr "waiting for a global operation to finish"]
           :: (poll_trace W compute (GlobalOperationsGet project operation)
                 n w
               ++ [ECall (GlobalOperationsGet project operation)
                     (Response result)])%list)).
Proof.
  split; intros Hd Hr He Hlt;
    apply done_after_split in Hd as (Hp & Hd & Hx).
  - unfold wait_for_operation, bind, print.
    pose proof (scope_loop_poll_loop compute (Zonal zone) project operation
                  fuel w) as Hloop.
    simpl in Hloop. rewrite Hloop.
    rewrite (poll_loop_done compute _ _ n fuel w Hp Hx Hlt), Hr.
    simpl. rewrite He. reflexivity.
  - unfold wait_for_global_operation, bind, print.
    pose proof (scope_loop_poll_loop compute Global project operation
                  fuel w) as Hloop.
    simpl in Hloop. rewrite Hloop.
    rewrite (poll_loop_done compute _ _ n fuel w Hp Hx Hlt), Hr.
    simpl. rewrite He. reflexivity.
Qed.

End MoreLoops.

(** ** More on the provisioners *)

Section MoreProvisioners.

Context {W : Type} (compute : request -> W -> reply * W).

(** The two waiters on a first [DONE] after [n] non-terminal polls. *)
Lemma wait_for_global_operation_done
    (project : string) (operation : value) (w : W) (n fuel : nat) :
  done_after W compute (GlobalOperationsGet project operation) n w = true ->
  (n < fuel)%nat ->
  wait_for_global_operation W compute fuel project operation w
  = (loop_exit true
       (reply_at W compute (GlobalOperationsGet project operation) n w),
     after_polls W compute (GlobalOperationsGet project operation) (S n) w,
     EPrint [VStr "waiting for a global operation to finish"]
       :: (poll_trace W compute (GlobalOperationsGet project operation) n w
           ++ [ECall (GlobalOperationsGet project operation)
                 (reply_at W compute (GlobalOperationsGet project operation)
                    n w)])%list).
Proof.
  intros Hd Hlt. apply done_after_split in Hd as (Hp & Hd & Hx).
  unfold wait_for_global_operation, bind, print.
  pose proof (scope_loop_poll_loop compute Global project operation fuel w)
    as Hloop.
  simpl in Hloop. rewrite Hloop.
  rewrite (poll_loop_done compute _ _ n fuel w Hp Hx Hlt). reflexivity.
Qed.

Lemma wait_for_operation_done
    (project zone : string) (operation : value) (w : W) (n fuel : nat) :
  done_after W compute (ZoneOperationsGet project zone operation) n w = true ->
  (n < fuel)%nat ->
  wait_for_operation W compute fuel project zone operation w
  = (loop_exit true
       (reply_at W compute (ZoneOperationsGet project zone operation) n w),
     after_polls W compute (ZoneOperationsGet project zone operation) (S n) w,
     EPrint [VStr "Waiting for operation to finish"]
       :: (poll_trace W compute (ZoneOperationsGet project zone operation) n w
           ++ [ECall (ZoneOperationsGet project zone operation)
                 (reply_at W compute (ZoneOperationsGet project zone operation)
                    n w)])%list).
Proof.
  intros Hd Hlt. apply done_after_split in Hd as (Hp & Hd & Hx).
  unfold wait_for_operation, bind, print.
  pose proof (scope_loop_poll_loop compute (Zonal zone) project operation
                fuel w) as Hloop.
  simpl in Hloop. rewrite Hloop.
  rewrite (poll_loop_done compute _ _ n fuel w Hp Hx Hlt). reflexivity.
Qed.

(** X6.  An operation handle without a [name] key: each provisioner has
    already sent its request, then raises [KeyError('name')] on
    [operation['name']] before any status query is made. *)
Theorem missing_operation_name_raises_key_error
    (fuel : nat) (w w1 : W) (operation : dict) :
  dict_lookup "name" operation = None ->
  (forall project region address_name,
     compute (AddressesInsert project region
                (VDict [("name", VStr address_name)])) w
     = (Response operation, w1) ->
     create_address W compute (S fuel) project region address_name w
     = (Raise (KeyError "name"), w1,
        [ECall (AddressesInsert project region
                  (VDict [("name", VStr address_name)]))
           (Response operation)]))
  /\ (forall project firewall_name,
        compute (FirewallsInsert project (firewall_body firewall_name)) w
        = (Response operation, w1) ->
        create_firewall_rule W compute fuel project firewall_name w
        = (Raise (KeyError "name"), w1,
           [EPrint [VStr ("Creating firewall rule '" ++ firewall_name
                          ++ "' ")];
            ECall (FirewallsInsert project (firewall_body firewall_name))
              (Response operation)]))
  /\ (forall project zone instance_name static_ip machine_type source_image
             disk_size_gb,
        compute (InstancesInsert project zone
                   (instance_config zone instance_name static_ip
                      machine_type source_image disk_size_gb)) w
        = (Response operation, w1) ->
        create_instance W compute fuel project zone instance_name static_ip
          machine_type source_image disk_size_gb w
        = (Raise (KeyError "name"), w1,
           [EPrint [VStr ("Creating VM instance '" ++ instance_name
                          ++ "' in zone '" ++ zone ++ "'")];
            ECall (InstancesInsert project zone
                     (instance_config zone instance_name static_ip
                        machine_type source_image disk_size_gb))
              (Response operation)])).
Proof.
  intro Hname. split; [| split].
  - intros project region address_name Hins.
    unfold create_address, bind, execute, subscript.
    rewrite Hins, Hname. reflexivity.
  - intros project firewall_name Hins.
    unfold create_firewall_rule, bind, print, execute, subscript.
    rewrite Hins, Hname. reflexivity.
  - intros project zone instance_name static_ip machine_type source_image
      disk_size_gb Hins.
    unfold create_instance, bind, print, execute, subscript.
    rewrite Hins, Hname. reflexivity.
Qed.

(** X7.  An Address resource without an [address] key: the allocation was
    requested and polled to [DONE], the resource was fetched, and only
    then [create_address] raises [KeyError('address')]. *)
Theorem missing_address_field_raises_key_error
    (project region address_name : string) (w w1 w2 : W)
    (operation address : dict) (operation_name : value) (n fuel : nat) :
  compute (AddressesInsert project region
             (VDict [("name", VStr address_name)])) w
  = (Response operation, w1) ->
  dict_lookup "name" operation = Some operation_name ->
  done_after W compute (RegionOperationsGet project region operation_name)
    n w1 = true ->
  (n < fuel)%nat ->
  compute (AddressesGet project region address_name)
    (after_polls W compute
       (RegionOperationsGet project region operation_name) (S n) w1)
  = (Response address, w2) ->
  dict_lookup "address" address = None ->
  create_address W compute fuel project region address_name w
  = (Raise (KeyError "address"), w2,
     ECall (AddressesInsert project region
              (VDict [("name", VStr address_name)])) (Response operation)
       :: (poll_trace W compute
             (RegionOperationsGet project region operation_name) n w1
           ++ [ECall (RegionOperationsGet project region operation_name)
                 (reply_at W compute
                    (RegionOperationsGet project region operation_name)
                    n w1);
               ECall (AddressesGet project region address_name)
                 (Response address)])%list).
Proof.
  intros Hins Hname Hd Hlt Hget Haddr.
  apply done_after_split in Hd as (Hp & Hd & Hx).
  unfold create_address, bind, execute, subscript.
  rewrite Hins, Hname. simpl.
  pose proof (scope_loop_poll_loop compute (Regional region) project
                operation_name fuel w1) as Hloop.
  simpl in Hloop. rewrite Hloop.
  rewrite (poll_loop_done compute _ _ n fuel w1 Hp Hx Hlt).
  destruct (reply_at W compute
              (RegionOperationsGet project region operation_name) n w1)
    as [result | detail] eqn:Hr; [| discriminate].
  simpl. simpl in Hget. rewrite Hget, Haddr. simpl.
  rewrite <- app_assoc. reflexivity.
Qed.

(** X8.  However [create_address] fails, it is with [KeyError('name')],
    [KeyError('address')] or an exception of [execute()]; it never raises
    the script's own [Exception], whatever the operation reported. *)
Theorem create_address_failure_modes
    (project region address_name : string) (fuel : nat) (w w' : W)
    (e : exn) (t : list event) :
  create_address W compute fuel project region address_name w
  = (Raise e, w', t) ->
  e = KeyError "name" \/ e = KeyError "address"
  \/ exists detail, e = HttpError detail.
Proof.
  unfold create_address, bind, execute, subscript.
  destruct (compute (AddressesInsert project region
                       (VDict [("name", VStr address_name)])) w)
    as [[operation | detail] w1].
  - destruct (dict_lookup "name" operation) as [operation_name |].
    + simpl.
      pose proof (scope_loop_poll_loop compute (Regional region) project
                    operation_name fuel w1) as Hloop.
      simpl in Hloop. rewrite Hloop.
      destruct (poll_loop W compute
                  (RegionOperationsGet project region operation_name)
                  false fuel w1) as [[o wl] tl] eqn:Hrun.
      destruct o as [[] | e' |]; try discriminate.
      * destruct (compute (AddressesGet project region address_name) wl)
          as [[address | detail] w2].
        -- destruct (dict_lookup "address" address); simpl;
             intro H; inversion H; auto.
        -- simpl. intro H. inversion H. eauto.
      * apply poll_loop_inv in Hrun as (n & _ & _ & _ & Ho & _);
          [| discriminate].
        destruct (reply_at W compute
                    (RegionOperationsGet project region operation_name) n w1)
          as [result | detail]; simpl in Ho; [discriminate |].
        intro H. inversion H; subst. inversion Ho. eauto.
    + simpl. intro H. inversion H. auto.
  - simpl. intro H. inversion H. eauto.
Qed.

End MoreProvisioners.

(** ** Outcomes of the firewall and the instance provisioner *)

Section Outcomes.

Context {W : Type} (compute : request -> W -> reply * W).

Lemma poll_events_no_print (t : list event) (parts : list value) :
  forallb is_poll_event t = true -> ~ In (EPrint parts) t.
Proof.
  induction t as [| e t IH]; intros H Hin; [destruct Hin |].
  simpl in H. apply andb_true_iff in H as [He Ht].
  destruct Hin as [-> | Hin]; [discriminate | exact (IH Ht Hin)].
Qed.

(** X9.  The closing message of a provisioner is printed exactly when it
    returns: [Firewall rule created.] is in the trace of
    [create_firewall_rule] if and only if the call returned normally, and
    likewise [VM INSTANCE CREATED SUCCESSFULLY!] for [create_instance]. *)
Theorem success_message_iff_returned (fuel : nat) (w : W) :
  (forall project firewall_name,
     In (EPrint [VStr "Firewall rule created."])
       (snd (create_firewall_rule W compute fuel project firewall_name w))
     <-> fst (fst (create_firewall_rule W compute fuel project
                     firewall_name w))
         = Ret tt)
  /\ (forall project zone instance_name static_ip machine_type source_image
             disk_size_gb,
        In (EPrint [VStr "VM INSTANCE CREATED SUCCESSFULLY!"])
          (snd (create_instance W compute fuel project zone instance_name
                  static_ip machine_type source_image disk_size_gb w))
        <-> fst (fst (create_instance W compute fuel project zone
                        instance_name static_ip machine_type source_image
                        disk_size_gb w))
            = Ret tt).
Proof.
  split.
  - intros project firewall_name.
    unfold create_firewall_rule, wait_for_global_operation, bind, print,
      execute, subscript.
    destruct (compute _ w) as [[operation | detail] w1]; simpl;
      [| split; [intros [H | [H | []]]; discriminate | discriminate]].
    destruct (dict_lookup "name" operation) as [operation_name |]; simpl;
      [| split; [intros [H | [H | []]]; discriminate | discriminate]].
    pose proof (scope_loop_poll_events compute Global project operation_name
                  fuel w1) as Hev.
    simpl in Hev.
    destruct (wait_for_global_operation_loop W compute fuel project
                operation_name w1) as [[o w2] t2].
    simpl in Hev.
    pose proof (poll_events_no_print t2 [VStr "Firewall rule created."] Hev)
      as Hno.
    destruct o as [[] | e |]; simpl.
    + split; [reflexivity |]. intros _. right. right. right.
      apply in_or_app. right. left. reflexivity.
    + split; [| discriminate].
      intros [H | [H | [H | H]]]; try discriminate. contradiction.
    + split; [| discriminate].
      intros [H | [H | [H | H]]]; try discriminate. contradiction.
  - intros project zone instance_name static_ip machine_type source_image
      disk_size_gb.
    unfold create_instance, wait_for_operation, bind, print, execute,
      subscript.
    destruct (compute _ w) as [[operation | detail] w1]; simpl;
      [| split; [intros [H | [H | []]]; discriminate | discriminate]].
    destruct (dict_lookup "name" operation) as [operation_name |]; simpl;
      [| split; [intros [H | [H | []]]; discriminate | discriminate]].
    pose proof (scope_loop_poll_events compute (Zonal zone) project
                  operation_name fuel w1) as Hev.
    simpl in Hev.
    destruct (wait_for_operation_loop W compute fuel project zone
                operation_name w1) as [[o w2] t2].
    simpl in Hev.
    pose proof (poll_events_no_print t2
                  [VStr "VM INSTANCE CREATED SUCCESSFULLY!"] Hev) as Hno.
    destruct o as [[] | e |]; simpl.
    + split; [reflexivity |]. intros _. right. right. right.
      apply in_or_app. right. left. reflexivity.
    + split; [| discriminate].
      intros [H | [H | [H | H]]]; try discriminate. contradiction.
    + split; [| discriminate].
      intros [H | [H | [H | H]]]; try discriminate. contradiction.
Qed.

(** X10.  The firewall provisioner follows its operation.  Once the
    request is accepted under a name and the global operation is [DONE]
    after [n] non-terminal polls: without an [error] key the provisioner
    returns, having printed its closing message last; with one it raises
    [Exception] with that payload and prints nothing more. *)
Theorem create_firewall_rule_follows_its_operation
    (project firewall_name : string) (w w1 : W) (operation result : dict)
    (operation_name : value) (n fuel : nat) :
  compute (FirewallsInsert project (firewall_body firewall_name)) w
  = (Response operation, w1) ->
  dict_lookup "name" operation = Some operation_name ->
  done_after W compute (GlobalOperationsGet project operation_name) n w1
  = true ->
  reply_at W compute (GlobalOperationsGet project operation_name) n w1
  = Response result ->
  (n < fuel)%nat ->
  (dict_lookup "error" result = None ->
   create_firewall_rule W compute fuel project firewall_name w
   = (Ret tt,
      after_polls W compute (GlobalOperationsGet project operation_name)
        (S n) w1,
      EPrint [VStr ("Creating firewall rule '" ++ firewall_name ++ "' ")]
        :: ECall (FirewallsInsert project (firewall_body firewall_name))
             (Response operation)
        :: EPrint [VStr "waiting for a global operation to finish"]
        :: (poll_trace W compute
              (GlobalOperationsGet project operation_name) n w1
            ++ [ECall (GlobalOperationsGet project operation_name)
                  (Response result);
                EPrint [VStr "Firewall rule created."]])%list))
  /\ (forall payload,
        dict_lookup "error" result = Some payload ->
        create_firewall_rule W compute fuel project firewall_name w
        = (Raise (Exception payload),
           after_polls W compute (GlobalOperationsGet project operation_name)
             (S n) w1,
           EPrint [VStr ("Creating firewall rule '" ++ firewall_name
                         ++ "' ")]
             :: ECall (FirewallsInsert project (firewall_body firewall_name))
                  (Response operation)
             :: EPrint [VStr "waiting for a global operation to finish"]
             :: (poll_trace W compute
                   (GlobalOperationsGet project operation_name) n w1
                 ++ [ECall (GlobalOperationsGet project operation_name)
                       (Response result)])%list)).
Proof.
  intros Hins Hname Hd Hr Hlt.
  pose proof (wait_for_global_operation_done compute project operation_name
                w1 n fuel Hd Hlt) as Hwait.
  rewrite Hr in Hwait. simpl in Hwait.
  split; [intro He | intros payload He]; rewrite He in Hwait;
    unfold create_firewall_rule, bind, print, execute, subscript;
    rewrite Hins, Hname; simpl; rewrite Hwait; simpl;
    rewrite <- ?app_assoc; reflexivity.
Qed.

(** X11.  The instance provisioner follows its operation in the same way:
    accepted under a name and [DONE] after [n] non-terminal polls of the
    zonal operation, it returns after its closing message when there is no
    [error] key, and raises [Exception] with the payload when there is
    one. *)
Theorem create_instance_follows_its_operation
    (project zone instance_name : string) (static_ip : value)
    (machine_type source_image : string) (disk_size_gb : Z)
    (w w1 : W) (operation result : dict) (operation_name : value)
    (n fuel : nat) :
  compute (InstancesInsert project zone
             (instance_config zone instance_name static_ip machine_type
                source_image disk_size_gb)) w
  = (Response operation, w1) ->
  dict_lookup "name" operation = Some operation_name ->
  done_after W compute (ZoneOperationsGet project zone operation_name) n w1
  = true ->
  reply_at W compute (ZoneOperationsGet project zone operation_name) n w1
  = Response result ->
  (n < fuel)%nat ->
  (dict_lookup "error" result = None ->
   create_instance W compute fuel project zone instance_name static_ip
     machine_type source_image disk_size_gb w
   = (Ret tt,
      after_polls W compute (ZoneOperationsGet project zone operation_name)
        (S n) w1,
      EPrint [VStr ("Creating VM instance '" ++ instance_name
                    ++ "' in zone '" ++ zone ++ "'")]
        :: ECall (InstancesInsert project zone
                    (instance_config zone instance_name static_ip
                       machine_type source_image disk_size_gb))
             (Response operation)
        :: EPrint [VStr "Waiting for operation to finish"]
        :: (poll_trace W compute
              (ZoneOperationsGet project zone operation_name) n w1
            ++ [ECall (ZoneOperationsGet project zone operation_name)
                  (Response result);
                EPrint [VStr "VM INSTANCE CREATED SUCCESSFULLY!"]])%list))
  /\ (forall payload,
        dict_lookup "error" result = Some payload ->
        create_instance W compute fuel project zone instance_name static_ip
          machine_type source_image disk_size_gb w
        = (Raise (Exception payload),
           after_polls W compute
             (ZoneOperationsGet project zone operation_name) (S n) w1,
           EPrint [VStr ("Creating VM instance '" ++ instance_name
                         ++ "' in zone '" ++ zone ++ "'")]
             :: ECall (InstancesInsert project zone
                         (instance_config zone instance_name static_ip
                            machine_type source_image disk_size_gb))
                  (Response operation)
             :: EPrint [VStr "Waiting for operation to finish"]
             :: (poll_trace W compute
                   (ZoneOperationsGet project zone operation_name) n w1
                 ++ [ECall (ZoneOperationsGet project zone operation_name)
                       (Response result)])%list)).
Proof.
  intros Hins Hname Hd Hr Hlt.
  pose proof (wait_for_operation_done compute project zone operation_name
                w1 n fuel Hd Hlt) as Hwait.
  rewrite Hr in Hwait. simpl in Hwait.
  split; [intro He | intros payload He]; rewrite He in Hwait;
    unfold create_instance, bind, print, execute, subscript;
    rewrite Hins, Hname; simpl; rewrite Hwait; simpl;
    rewrite <- ?app_assoc; reflexivity.
Qed.

(** X12.  Whatever the answers and however the call ends,
    [create_instance] submits exactly one instance spec, built from its
    arguments: the machine type is the path
    [zones/<zone>/machineTypes/<machine_type>] under the key
    [machine_type], the one disk is a boot disk deleted with the instance
    and initialised from the given image and size, the one interface is on
    the default network with a single ONE_TO_ONE_NAT access config bound to
    the given address, and the tags are http-server and ssh-server. *)
Theorem instance_spec_is_built_from_arguments
    (fuel : nat) (project zone instance_name : string) (static_ip : value)
    (machine_type source_image : string) (disk_size_gb : Z) (w : W) :
  instance_bodies
    (snd (create_instance W compute fuel project zone instance_name static_ip
            machine_type source_image disk_size_gb w))
  = [VDict
       [("name", VStr instance_name);
        ("machine_type",
         VStr ("zones/" ++ zone ++ "/machineTypes/" ++ machine_type));
        ("disks",
         VList [VDict [("boot", VBool true);
                       ("autoDelete", VBool true);
                       ("initializeParams",
                        VDict [("sourceImage", VStr source_image);
                               ("diskSizeGb", VInt disk_size_gb)])]]);
        ("networkInterfaces",
         VList [VDict [("network", VStr "global/networks/default");
                       ("accessConfigs",
                        VList [VDict [("name", VStr "External_NAT");
                                      ("type", VStr "ONE_TO_ONE_NAT");
                                      ("natIP", static_ip)]])]]);
        ("tags",
         VDict [("items", VList [VStr "http-server"; VStr "ssh-server"])])]].
Proof.
  destruct (create_instance_trace compute fuel project zone instance_name
              static_ip machine_type source_image disk_size_gb w)
    as (rp & t' & Ht & Hi).
  rewrite Ht. simpl. rewrite Hi. reflexivity.
Qed.

End Outcomes.

(** ** What the whole script submits *)



Section Submissions.

Context {W : Type} (compute : request -> W -> reply * W).





End Submissions.

Section WholeScript.

Context {W : Type}
  (discovery_build : string -> string -> W -> built W * W).


End WholeScript.

(** ** The further statements at work on scripted clients *)

Lemma other_status_keeps_polling_witness :
  scope_loop _ scripted (Zonal zone) 2 project (VStr "operation-1")
    [Response [("name", VStr "operation-1")]; done]
  = (Ret tt, [],
     [ECall (ZoneOperationsGet project zone (VStr "operation-1"))
        (Response [("name", VStr "operation-1")]);
      ESleep 1;
      ECall (ZoneOperationsGet project zone (VStr "operation-1")) done]).
Proof.
  rewrite (other_status_keeps_polling scripted (Zonal zone) project
             (VStr "operation-1")
             [Response [("name", VStr "operation-1")]; done] 1
             [("name", VStr "operation-1")]);
    [reflexivity | reflexivity | discriminate].
Defined.

Lemma poll_failure_ends_the_wait_witness :
  scope_loop _ scripted Global 5 project (VStr "operation-1")
    [running; Failure (VStr "503 backend error"); done]
  = (Raise (HttpError (VStr "503 backend error")), [done],
     [ECall (GlobalOperationsGet project (VStr "operation-1")) running;
      ESleep 1;
      ECall (GlobalOperationsGet project (VStr "operation-1"))
        (Failure (VStr "503 backend error"))]).
Proof.
  apply (poll_failure_ends_the_wait scripted Global project
           (VStr "operation-1")
           [running; Failure (VStr "503 backend error"); done] 1 5
           (VStr "503 backend error"));
    [reflexivity | reflexivity | lia].
Defined.

Lemma loop_only_polls_its_operation_witness :
  ESleep 1 = ESleep 1
  \/ exists rp,
       ESleep 1
       = ECall (poll_request (Regional region) project (VStr "operation-1"))
           rp.
Proof.
  apply (loop_only_polls_its_operation scripted (Regional region) project
           (VStr "operation-1") 3 [running; done] (ESleep 1)).
  simpl. right. left. reflexivity.
Defined.

Lemma wait_raises_operation_error_witness :
  fst (fst (wait_for_operation _ scripted 4 project zone (VStr "operation-1")
              [running; done_with_error]))
  = Raise (Exception quota_exceeded)
  /\ fst (fst (wait_for_global_operation _ scripted 4 project
                 (VStr "operation-1") [running; done_with_error]))
     = Raise (Exception quota_exceeded).
Proof.
  split.
  - rewrite (proj1 (wait_raises_operation_error scripted project zone
                      (VStr "operation-1") [running; done_with_error] 1 4
                      [("status", VStr "DONE"); ("error", quota_exceeded)]
                      quota_exceeded));
      [reflexivity | reflexivity | reflexivity | reflexivity | lia].
  - rewrite (proj2 (wait_raises_operation_error scripted project zone
                      (VStr "operation-1") [running; done_with_error] 1 4
                      [("status", VStr "DONE"); ("error", quota_exceeded)]
                      quota_exceeded));
      [reflexivity | reflexivity | reflexivity | reflexivity | lia].
Defined.

Lemma missing_operation_name_raises_key_error_witness :
  fst (fst (create_address _ scripted 1 project region address_name
              [Response [("status", VStr "RUNNING")]; done]))
  = Raise (KeyError "name")
  /\ fst (fst (create_firewall_rule _ scripted 3 project firewall_name
                 [Response [("status", VStr "RUNNING")]; done]))
     = Raise (KeyError "name")
  /\ fst (fst (create_instance _ scripted 3 project zone instance_name
                 (VStr "34.1.2.3") machine_type source_image disk_size_gb
                 [Response [("status", VStr "RUNNING")]; done]))
     = Raise (KeyError "name").
Proof.
  split; [| split].
  - rewrite (proj1 (missing_operation_name_raises_key_error scripted 0
                      [Response [("status", VStr "RUNNING")]; done] [done]
                      [("status", VStr "RUNNING")] eq_refl)
               project region address_name eq_refl).
    reflexivity.
  - rewrite (proj1 (proj2 (missing_operation_name_raises_key_error scripted 3
                             [Response [("status", VStr "RUNNING")]; done]
                             [done] [("status", VStr "RUNNING")] eq_refl))
               project firewall_name eq_refl).
    reflexivity.
  - rewrite (proj2 (proj2 (missing_operation_name_raises_key_error scripted 3
                             [Response [("status", VStr "RUNNING")]; done]
                             [done] [("status", VStr "RUNNING")] eq_refl))
               project zone instance_name (VStr "34.1.2.3") machine_type
               source_image disk_size_gb eq_refl).
    reflexivity.
Defined.

Lemma missing_address_field_raises_key_error_witness :
  fst (fst (create_address _ scripted 5 project region address_name
              [started "operation-address"; done;
               Response [("name", VStr "vm-static-ip");
                         ("status", VStr "RESERVING")]]))
  = Raise (KeyError "address").
Proof.
  rewrite (missing_address_field_raises_key_error scripted project region
             address_name
             [started "operation-address"; done;
              Response [("name", VStr "vm-static-ip");
                        ("status", VStr "RESERVING")]]
             [done;
              Response [("name", VStr "vm-static-ip");
                        ("status", VStr "RESERVING")]]
             []
             [("name", VStr "operation-address"); ("status", VStr "RUNNING")]
             [("name", VStr "vm-static-ip"); ("status", VStr "RESERVING")]
             (VStr "operation-address") 0 5);
    try reflexivity; lia.
Defined.

Lemma create_address_failure_modes_witness :
  HttpError (VStr "409 already exists") = KeyError "name"
  \/ HttpError (VStr "409 already exists") = KeyError "address"
  \/ exists detail, HttpError (VStr "409 already exists") = HttpError detail.
Proof.
  apply (create_address_failure_modes scripted project region address_name 5
           [Failure (VStr "409 already exists")] []
           (HttpError (VStr "409 already exists"))
           [ECall (AddressesInsert project region
                     (VDict [("name", VStr address_name)]))
              (Failure (VStr "409 already exists"))]).
  reflexivity.
Defined.

Lemma create_firewall_rule_follows_its_operation_witness :
  fst (fst (create_firewall_rule _ scripted 5 project firewall_name
              [started "operation-firewall"; running; done]))
  = Ret tt
  /\ fst (fst (create_firewall_rule _ scripted 5 project firewall_name
                 [started "operation-firewall"; running; done_with_error]))
     = Raise (Exception quota_exceeded).
Proof.
  split.
  - rewrite (proj1 (create_firewall_rule_follows_its_operation scripted
                      project firewall_name
                      [started "operation-firewall"; running; done]
                      [running; done]
                      [("name", VStr "operation-firewall");
                       ("status", VStr "RUNNING")]
                      [("status", VStr "DONE")]
                      (VStr "operation-firewall") 1 5
                      eq_refl eq_refl eq_refl eq_refl ltac:(lia)) eq_refl).
    reflexivity.
  - rewrite (proj2 (create_firewall_rule_follows_its_operation scripted
                      project firewall_name
                      [started "operation-firewall"; running; done_with_error]
                      [running; done_with_error]
                      [("name", VStr "operation-firewall");
                       ("status", VStr "RUNNING")]
                      [("status", VStr "DONE"); ("error", quota_exceeded)]
                      (VStr "operation-firewall") 1 5
                      eq_refl eq_refl eq_refl eq_refl ltac:(lia))
               quota_exceeded eq_refl).
    reflexivity.
Defined.

Lemma create_instance_follows_its_operation_witness :
  fst (fst (create_instance _ scripted 5 project zone instance_name
              (VStr "34.1.2.3") machine_type source_image disk_size_gb
              [started "operation-instance"; running; done]))
  = Ret tt
  /\ fst (fst (create_instance _ scripted 5 project zone instance_name
                 (VStr "34.1.2.3") machine_type source_image disk_size_gb
                 [started "operation-instance"; done_with_error]))
     = Raise (Exception quota_exceeded).
Proof.
  split.
  - rewrite (proj1 (create_instance_follows_its_operation scripted
                      project zone instance_name (VStr "34.1.2.3")
                      machine_type source_image disk_size_gb
                      [started "operation-instance"; running; done]
                      [running; done]
                      [("name", VStr "operation-instance");
                       ("status", VStr "RUNNING")]
                      [("status", VStr "DONE")]
                      (VStr "operation-instance") 1 5
                      eq_refl eq_refl eq_refl eq_refl ltac:(lia)) eq_refl).
    reflexivity.
  - rewrite (proj2 (create_instance_follows_its_operation scripted
                      project zone instance_name (VStr "34.1.2.3")
                      machine_type source_image disk_size_gb
                      [started "operation-instance"; done_with_error]
                      [done_with_error]
                      [("name", VStr "operation-instance");
                       ("status", VStr "RUNNING")]
                      [("status", VStr "DONE"); ("error", quota_exceeded)]
                      (VStr "operation-instance") 0 5
                      eq_refl eq_refl eq_refl eq_refl ltac:(lia))
               quota_exceeded eq_refl).
    reflexivity.
Defined.

